(** * ndarray_tensor: conversions between numpy ndarrays and TF_Tensors

    A shallow embedding of
    [tensorflow/python/lib/core/ndarray_tensor.cc] and the properties of
    its string codec, shape resolver and conversion entry points.

    Pointers into a buffer are byte offsets from the buffer's base, kept
    as [Z]; 64-bit arithmetic is written with its wrap-around; a buffer
    is a list of bytes; a [Status] together with the out-parameters of a
    C++ function is an [Outcome]. *)

From Stdlib Require Import String ZArith List Lia Bool.
From coqutil Require Import Byte Word.LittleEndianList Z.bitblast.
Import ListNotations.
Local Open Scope Z_scope.

(** ** Machine integers *)

Module Int.

(** Conversion to [uint64] / [size_t]. *)
Definition to_uint64 (z : Z) : Z := z mod 2 ^ 64.

(** Conversion to [int64] / [npy_intp] / [Py_ssize_t] (two's complement). *)
Definition to_int64 (z : Z) : Z := (z + 2 ^ 63) mod 2 ^ 64 - 2 ^ 63.

Definition sizeof_uint64 : Z := 8.

End Int.

(** Length of a list as a machine-sized quantity. *)
Definition zlen {A : Type} (l : list A) : Z := Z.of_nat (length l).

(** ** Status and outcomes *)

Inductive Code : Type :=
| INVALID_ARGUMENT
| INTERNAL
| FAILED_PRECONDITION.

(** The arguments of the variadic [errors::Xxx(...)] constructors, which
    concatenate strings and numbers into the message. *)
Inductive StrCatArg : Type :=
| Str (s : string)
| Num (n : Z).

Record Status : Type := mkStatus { code : Code; error_message : list StrCatArg }.

Module errors.
Definition InvalidArgument (args : list StrCatArg) : Status :=
  mkStatus INVALID_ARGUMENT args.
Definition Internal (args : list StrCatArg) : Status :=
  mkStatus INTERNAL args.
Definition FailedPrecondition (args : list StrCatArg) : Status :=
  mkStatus FAILED_PRECONDITION args.
End errors.

(** What a call does: it returns [Status::OK()] with its out-parameters,
    it returns a non-OK [Status], or the process does not survive it (a
    failed [CHECK], an access outside a buffer). *)
Inductive Outcome (A : Type) : Type :=
| Ok (a : A)
| Fail (s : Status)
| Abort (what : string).

Arguments Ok {A} a.
Arguments Fail {A} s.
Arguments Abort {A} what.

Definition bind {A B : Type} (m : Outcome A) (k : A -> Outcome B) : Outcome B :=
  match m with
  | Ok a => k a
  | Fail s => Fail s
  | Abort w => Abort w
  end.

Notation "x <- m ;; k" := (bind m (fun x => k))
  (at level 61, m at next level, right associativity).
Notation "' p <- m ;; k" := (bind m (fun x => let p := x in k))
  (at level 61, p pattern, m at next level, right associativity).

Definition ok {A : Type} (m : Outcome A) : bool :=
  match m with Ok _ => true | _ => false end.

(** ** Buffers *)

Definition buffer : Type := list byte.

Module Mem.

(** [memcpy(mem + pos, bs, |bs|)]. *)
Definition store_bytes (mem : buffer) (pos : Z) (bs : list byte) : Outcome buffer :=
  if (0 <=? pos) && (pos + zlen bs <=? zlen mem)
  then Ok (firstn (Z.to_nat pos) mem ++ bs ++ skipn (Z.to_nat pos + length bs) mem)
  else Abort "out-of-bounds write".

(** The [len] bytes at [mem + pos]. *)
Definition load_bytes (mem : buffer) (pos len : Z) : Outcome (list byte) :=
  if (0 <=? pos) && (0 <=? len) && (pos + len <=? zlen mem)
  then Ok (firstn (Z.to_nat len) (skipn (Z.to_nat pos) mem))
  else Abort "out-of-bounds read".

(** Assignment through a [uint64] pointer to [mem + pos], in the byte
    order of the host (little-endian). *)
Definition store_uint64 (mem : buffer) (pos v : Z) : Outcome buffer :=
  store_bytes mem pos (le_split 8 v).

(** Read through a [uint64] pointer to [mem + pos]. *)
Definition load_uint64 (mem : buffer) (pos : Z) : Outcome Z :=
  bs <- load_bytes mem pos 8 ;; Ok (le_combine bs).

(** The bytes a reader bounded by [limit] can see from [p] on. *)
Definition window (mem : buffer) (p limit : Z) : list byte :=
  firstn (Z.to_nat (limit - p)) (skipn (Z.to_nat p) mem).

(** [new char[n]]: contents unspecified, zero here. *)
Definition new_chars (n : Z) : buffer := repeat Byte.x00 (Z.to_nat n).

End Mem.

(** ** Varint coding and TF_StringDecode *)

Module core.

(** A 64-bit value has ten groups of seven bits, so ten rounds exhaust
    the loops below. *)
Definition varint_rounds : nat := 10.

(** Modelled from the spec: the loop of [VarintLength], one round per
    group of seven bits above the lowest. *)
Fixpoint VarintLength_loop (fuel : nat) (v len : Z) : Z :=
  match fuel with
  | O => len
  | S fuel' =>
      if 128 <=? v then VarintLength_loop fuel' (Z.shiftr v 7) (len + 1) else len
  end.

(** Modelled from the spec: [VarintLength] of
    [tensorflow/core/lib/core/coding.h], which is not part of the
    sources at hand; the glossary's varint (few bytes for small values:
    one byte below 128, seven payload bits per byte). *)
Definition VarintLength (v : Z) : Z :=
  VarintLength_loop varint_rounds (Int.to_uint64 v) 1.

(** Modelled from the spec: the loop of [EncodeVarint64]: the low seven
    bits with the continuation bit while more follow, then the last
    byte. *)
Fixpoint EncodeVarint64_loop (fuel : nat) (v : Z) : list byte :=
  match fuel with
  | O => [byte.of_Z v]
  | S fuel' =>
      if 128 <=? v
      then byte.of_Z (Z.lor (Z.land v 127) 128)
             :: EncodeVarint64_loop fuel' (Z.shiftr v 7)
      else [byte.of_Z v]
  end.

(** The bytes [EncodeVarint64] writes for the [uint64] value [v]. *)
Definition varint_bytes (v : Z) : list byte :=
  EncodeVarint64_loop varint_rounds (Int.to_uint64 v).

(** Modelled from the spec: [EncodeVarint64] of
    [tensorflow/core/lib/core/coding.h], not part of the sources at
    hand: writes the variable-length encoding of the unsigned [v] at
    [dst] and returns the position after it. *)
Definition EncodeVarint64 (mem : buffer) (dst v : Z) : Outcome (buffer * Z) :=
  mem' <- Mem.store_bytes mem dst (varint_bytes v) ;;
  Ok (mem', dst + zlen (varint_bytes v)).

(** Modelled from the spec: the loop of [GetVarint64Ptr] over the bytes
    before the limit, [shift] going from 0 to 63 in steps of 7. *)
Fixpoint GetVarint64_loop (bytes : list byte) (shift result p : Z) : option (Z * Z) :=
  if shift <=? 63 then
    match bytes with
    | [] => None
    | b :: rest =>
        let byte := byte.unsigned b in
        if negb (Z.land byte 128 =? 0)
        then GetVarint64_loop rest (shift + 7)
               (Z.lor result (Int.to_uint64 (Z.shiftl (Z.land byte 127) shift)))
               (p + 1)
        else Some (p + 1, Z.lor result (Int.to_uint64 (Z.shiftl byte shift)))
    end
  else None.

(** Modelled from the spec: [GetVarint64Ptr] of
    [tensorflow/core/lib/core/coding.h], not part of the sources at
    hand: reads a varint from [p], never at or after [limit]; the
    position after it and the value, or nothing. *)
Definition GetVarint64Ptr (mem : buffer) (p limit : Z) : option (Z * Z) :=
  GetVarint64_loop (Mem.window mem p limit) 0 0 p.

End core.

(** Modelled from the spec: [TF_StringDecode] of the tensor engine's C
    API, not part of the sources at hand.  It reads the length-prefixed
    record at [src], of which [src_len] bytes are available, and fails
    when decoding runs past that limit; on success it gives the position
    and the length of the record's bytes. *)
Definition TF_StringDecode (mem : buffer) (src src_len : Z) : Outcome (Z * Z) :=
  let limit := Int.to_uint64 (src + src_len) in
  match core.GetVarint64Ptr mem src limit with
  | None =>
      Fail (errors.InvalidArgument
              [Str "invalid string encoding or truncated src buffer"])
  | Some (p, len64) =>
      if limit - p <? len64
      then Fail (errors.InvalidArgument
                   [Str "invalid string encoding or truncated src buffer"])
      else Ok (p, len64)
  end.

(** ** The tensor engine's side *)

(** Modelled from the spec: the dtype tag of a native tensor, with the
    enumerators of the C API's [TF_DataType], which is declared outside
    the sources at hand. *)
Inductive TF_DataType : Type :=
| TF_FLOAT | TF_DOUBLE | TF_INT32 | TF_UINT8 | TF_INT16 | TF_INT8 | TF_STRING
| TF_COMPLEX64 | TF_INT64 | TF_BOOL | TF_QINT8 | TF_QUINT8 | TF_QINT32
| TF_BFLOAT16 | TF_QINT16 | TF_QUINT16 | TF_UINT16 | TF_COMPLEX128 | TF_HALF
| TF_RESOURCE | TF_VARIANT | TF_UINT32 | TF_UINT64.

Definition is_TF_STRING (d : TF_DataType) : bool :=
  match d with TF_STRING => true | _ => false end.

Definition is_TF_RESOURCE (d : TF_DataType) : bool :=
  match d with TF_RESOURCE => true | _ => false end.

(** The deallocator a tensor was given for its buffer: the three ways
    this layer and the tensor engine make tensors. *)
Inductive Deallocator : Type :=
| DelayedNumpyDecref      (* the buffer is an ndarray's, released with it *)
| delete_char_array       (* the buffer was made by [new char[]] *)
| engine_allocated.       (* the buffer is the tensor engine's own *)

(** Modelled from the spec: the native tensor, a dtype tag, a dimension
    vector and a contiguous byte buffer; [TF_Tensor] and its accessors
    are declared in the tensor engine's C API. *)
Record TF_Tensor : Type := mkTensor {
  tensor_dtype : TF_DataType;
  tensor_dims : list Z;
  tensor_data : buffer;
  tensor_deallocator : Deallocator
}.

Definition TF_TensorType (t : TF_Tensor) : TF_DataType := tensor_dtype t.
Definition TF_NumDims (t : TF_Tensor) : Z := zlen (tensor_dims t).
Definition TF_TensorData (t : TF_Tensor) : buffer := tensor_data t.
Definition TF_TensorByteSize (t : TF_Tensor) : Z := zlen (tensor_data t).

(** Modelled from the spec: [TF_NewTensor] of the tensor engine's C API,
    not part of the sources at hand: the [len] bytes at [data] are
    adopted by a new tensor handle of the given dtype and dimensions. *)
Definition TF_NewTensor (dtype : TF_DataType) (dims : list Z) (data : buffer)
    (len : Z) (deallocator : Deallocator) : TF_Tensor :=
  mkTensor dtype dims (firstn (Z.to_nat len) data) deallocator.

(** ** The array runtime's side *)

Record PyArray_Descr : Type := mkDescr { type_num : Z; elsize : Z }.

Definition NPY_OBJECT : Z := 17.

(** The objects found as elements of an array. *)
Inductive PyElement : Type :=
| ElemNone
| PyBytes (s : list byte)
| PyUnicode (utf8 : option (list byte))   (* its UTF-8 form, when it has one *)
| PyOtherElement (tp_name : string).

(** An array holds either fixed-width elements, densely packed, or
    references to objects; an element reference that [PyArray_GETITEM]
    cannot produce is [None]. *)
Inductive ArrayContents : Type :=
| Dense (bytes : buffer)
| Objects (items : list (option PyElement)).

Record PyArrayObject : Type := mkArray {
  array_descr : PyArray_Descr;
  array_shape : list Z;
  array_contents : ArrayContents;
  NPY_ARRAY_OWNDATA : bool
}.

Inductive PyObject : Type :=
| Py_None
| PyNdarray (a : PyArrayObject)
| PyOther (tp_name : string).

Definition PyArray_DESCR (a : PyArrayObject) : PyArray_Descr := array_descr a.
Definition PyArray_NDIM (a : PyArrayObject) : Z := zlen (array_shape a).
Definition PyArray_SHAPE (a : PyArrayObject) : list Z := array_shape a.
Definition PyArray_MultiplyList (dims : list Z) : Z := fold_left Z.mul dims 1.
Definition PyArray_SIZE (a : PyArrayObject) : Z := PyArray_MultiplyList (array_shape a).
Definition PyArray_ITEMSIZE (a : PyArrayObject) : Z := elsize (array_descr a).
Definition PyArray_NBYTES (a : PyArrayObject) : Z := PyArray_ITEMSIZE a * PyArray_SIZE a.

(** The array's data area; for an object array it holds one pointer per
    element, opaque here. *)
Definition PyArray_DATA (a : PyArrayObject) : buffer :=
  match array_contents a with
  | Dense bytes => bytes
  | Objects _ => Mem.new_chars (PyArray_NBYTES a)
  end.

(** What [PyArray_GETITEM] yields along a row-major iteration; the
    elements of a fixed-width array come out as numpy scalars. *)
Definition PyArray_items (a : PyArrayObject) : list (option PyElement) :=
  match array_contents a with
  | Objects items => items
  | Dense _ => repeat (Some (PyOtherElement "numpy.generic")) (Z.to_nat (PyArray_SIZE a))
  end.

(** [PyArray_FromAny(obj, nullptr, 0, 0, NPY_ARRAY_CARRAY_RO, nullptr)]:
    a dense array is handed back as it is; nothing else is taken for an
    array here. *)
Definition PyArray_FromAny (obj : PyObject) : option PyArrayObject :=
  match obj with
  | PyNdarray a => Some a
  | _ => None
  end.

(** The invariant of an array object: non-negative dimensions, and a
    contiguous, densely packed data area of exactly [PyArray_NBYTES]
    bytes (or one reference per element). *)
Definition PyArray_wf (a : PyArrayObject) : Prop :=
  Forall (fun d => 0 <= d) (array_shape a) /\
  0 <= elsize (array_descr a) /\
  PyArray_NBYTES a < 2 ^ 63 /\
  match array_contents a with
  | Dense bytes => zlen bytes = PyArray_NBYTES a
  | Objects items => zlen items = PyArray_SIZE a
  end.

(** ** Collaborators outside this layer

    The dtype lookups in both directions, the ownership decision of the
    tensor engine and the failures of the array runtime's allocator are
    not decided here; a [Runtime] fixes them. *)
Record Runtime : Type := mkRuntime {
  DataTypeToPyArray_Descr : TF_DataType -> Outcome PyArray_Descr;
  PyArray_DescrToDataType : PyArray_Descr -> Outcome TF_DataType;
  (** [TF_TensorMaybeMove] grants the exclusive transfer of the buffer *)
  move_granted : TF_Tensor -> bool;
  (** [PyArray_Empty] returns null *)
  PyArray_Empty_fails : list Z -> PyArray_Descr -> bool;
  (** [PyBytes_FromStringAndSize] returns null for element [i] *)
  PyBytes_FromStringAndSize_fails : Z -> bool;
  (** [PyArray_SETITEM] reports a failure for element [i] *)
  PyArray_SETITEM_fails : Z -> bool
}.

Definition TF_TensorMaybeMove (rt : Runtime) (t : TF_Tensor) : option TF_Tensor :=
  if move_granted rt t then Some t else None.

(** [PyArray_Empty(nd, dims, descr, 0)]: a fresh array that owns its
    data; numpy refuses negative dimensions and sizes beyond
    [npy_intp]. *)
Definition PyArray_Empty (rt : Runtime) (dims : list Z) (descr : PyArray_Descr)
  : option PyArrayObject :=
  let size := PyArray_MultiplyList dims in
  if PyArray_Empty_fails rt dims descr
     || negb (forallb (fun d => 0 <=? d) dims)
     || negb (elsize descr * size <? 2 ^ 63)
     || negb (0 <=? elsize descr)
  then None
  else Some (mkArray descr dims
               (if type_num descr =? NPY_OBJECT
                then Objects (repeat (Some ElemNone) (Z.to_nat size))
                else Dense (Mem.new_chars (elsize descr * size)))
               true).

(** Modelled from the spec: [ArrayFromMemory] of
    [tensorflow/python/lib/core/ndarray_tensor_bridge.h], not part of the
    sources at hand.  Applicable only when the dtype is neither string
    nor resource; it then builds an array object whose buffer is that
    same memory and which does not own it: the release callback deletes
    the tensor when the array's last reference is dropped. *)
Definition ArrayFromMemory (rt : Runtime) (dims : list Z) (data : buffer)
    (dtype : TF_DataType) : Outcome PyObject :=
  if is_TF_STRING dtype || is_TF_RESOURCE dtype
  then Fail (errors.FailedPrecondition [Str "Cannot convert string or resource Tensors."])
  else
    descr <- DataTypeToPyArray_Descr rt dtype ;;
    Ok (PyNdarray (mkArray descr dims (Dense data) false)).

(** ** The string codec: encoding *)

(** The bytes of an element and their length.  On a bytes object
    [PyBytes_AsStringAndSize] is asked for the length too, so embedded
    zero bytes are kept and the call has no failure left; for a text
    element the outcome of the UTF-8 conversion is part of the element. *)
Definition PyObjectToString (obj : PyElement) : Outcome (list byte) :=
  match obj with
  | PyBytes buf => Ok buf
  | PyUnicode (Some utf8) => Ok utf8
  | PyUnicode None => Fail (errors.Internal [Str "Unable to convert element to UTF-8"])
  | ElemNone => Fail (errors.Internal [Str "Unsupported object type "; Str "NoneType"])
  | PyOtherElement tp_name =>
      Fail (errors.Internal [Str "Unsupported object type "; Str tp_name])
  end.

Fixpoint PyBytesArrayMap_iter {S : Type} (items : list (option PyElement))
    (f : list byte -> S -> Outcome S) (s : S) : Outcome S :=
  match items with
  | [] => Ok s
  | item :: rest =>
      match item with
      | None =>
          Fail (errors.Internal [Str "Unable to get element from the feed - no item."])
      | Some obj =>
          ptr <- PyObjectToString obj ;;
          s' <- f ptr s ;;
          PyBytesArrayMap_iter rest f s'
      end
  end.

(** Iterate over the string array, extract the bytes of each element and
    call [f] on them; the state [f] captures by reference is threaded
    through. *)
Definition PyBytesArrayMap {S : Type} (array : PyArrayObject)
    (f : list byte -> S -> Outcome S) (s : S) : Outcome S :=
  PyBytesArrayMap_iter (PyArray_items array) f s.

(** The variables the encoding lambda captures by reference. *)
Record EncodeState : Type := mkEncodeState {
  enc_mem : buffer;     (* the buffer at [base] *)
  enc_dst : Z;          (* where the next string is encoded *)
  enc_offsets : Z       (* the next slot of the offset table *)
}.

(** The first lambda of [EncodePyBytesArray]. *)
Definition measure_element (ptr : list byte) (size : Z) : Outcome Z :=
  let len := zlen ptr in
  Ok (Int.to_uint64 (size + (Int.sizeof_uint64 + core.VarintLength len + len))).

(** The second lambda of [EncodePyBytesArray]. *)
Definition encode_element (data_start : Z) (ptr : list byte) (st : EncodeState)
  : Outcome EncodeState :=
  let len := zlen ptr in
  mem1 <- Mem.store_uint64 (enc_mem st) (enc_offsets st)
            (Int.to_uint64 (enc_dst st - data_start)) ;;
  let offsets := enc_offsets st + Int.sizeof_uint64 in
  '(mem2, dst) <- core.EncodeVarint64 mem1 (enc_dst st) len ;;
  mem3 <- Mem.store_bytes mem2 dst ptr ;;
  Ok (mkEncodeState mem3 (dst + len) offsets).

(** The measuring pass: bytes needed for encoding. *)
Definition measure_pass (array : PyArrayObject) : Outcome Z :=
  PyBytesArrayMap array measure_element 0.

(** The fill pass, into a fresh buffer of [size] bytes. *)
Definition fill_pass (array : PyArrayObject) (nelems size : Z) : Outcome EncodeState :=
  let base := Mem.new_chars size in
  let data_start := Int.to_uint64 (Int.sizeof_uint64 * nelems) in
  PyBytesArrayMap array (encode_element data_start)
    (mkEncodeState base data_start 0).

(** Encode the strings in [array] into a contiguous buffer; the size and
    the buffer are returned. *)
Definition EncodePyBytesArray (array : PyArrayObject) (nelems : Z)
  : Outcome (Z * buffer) :=
  size <- measure_pass array ;;
  st <- fill_pass array nelems size ;;
  if enc_dst st =? size
  then Ok (size, enc_mem st)
  else Abort "CHECK_EQ(dst, base + *size)".

(** ** The string codec: decoding *)

(** Replace the element at [index]. *)
Definition set_item {A : Type} (l : list A) (index : Z) (x : A) : list A :=
  firstn (Z.to_nat index) l ++ x :: skipn (S (Z.to_nat index)) l.

(** [PyArray_SETITEM] at the iterator's position: [None] is its non-zero
    return value. *)
Definition PyArray_SETITEM (rt : Runtime) (arr : PyArrayObject) (index : Z)
    (item : PyElement) : Outcome (option PyArrayObject) :=
  match array_contents arr with
  | Objects items =>
      if (0 <=? index) && (index <? zlen items)
      then
        if PyArray_SETITEM_fails rt index then Ok None
        else Ok (Some (mkArray (array_descr arr) (array_shape arr)
                         (Objects (set_item items index (Some item)))
                         (NPY_ARRAY_OWNDATA arr)))
      else Abort "PyArray_SETITEM past the end of the array"
  | Dense _ => Ok None
  end.

(** The loop of [CopyTF_TensorStringsToPyArray], [count] elements from
    element [i] on; the array iterator stands at element [i] too. *)
Fixpoint CopyTF_TensorStrings_loop (rt : Runtime) (tensor_data : buffer)
    (data limit : Z) (count : nat) (i : Z) (dst : PyArrayObject)
  : Outcome PyArrayObject :=
  match count with
  | O => Ok dst
  | S count' =>
      offset_i <- Mem.load_uint64 tensor_data (Int.sizeof_uint64 * i) ;;
      let start := Int.to_uint64 (data + offset_i) in
      match TF_StringDecode tensor_data start (Int.to_uint64 (limit - start)) with
      | Abort w => Abort w
      | Fail status => Fail (errors.InvalidArgument (error_message status))
      | Ok (ptr, len) =>
          bytes <- Mem.load_bytes tensor_data ptr len ;;
          if PyBytes_FromStringAndSize_fails rt i
          then Fail (errors.Internal
                       [Str "failed to create a python byte array when converting element #";
                        Num i;
                        Str " of a TF_STRING tensor to a numpy ndarray"])
          else
            r <- PyArray_SETITEM rt dst i (PyBytes bytes) ;;
            match r with
            | None => Fail (errors.Internal
                              [Str "Error settings element #"; Num i;
                               Str " in the numpy ndarray"])
            | Some dst' =>
                CopyTF_TensorStrings_loop rt tensor_data data limit count' (i + 1) dst'
            end
      end
  end.

(** Decode the [nelems] strings of the tensor [src] into the elements of
    [dst]; the two [DCHECK]s, absent from release builds, are left
    out. *)
Definition CopyTF_TensorStringsToPyArray (rt : Runtime) (src : TF_Tensor)
    (nelems : Z) (dst : PyArrayObject) : Outcome PyArrayObject :=
  let tensor_data := TF_TensorData src in
  let tensor_size := TF_TensorByteSize src in
  (* pointers are offsets from [tensor_data] *)
  let limit := 0 + tensor_size in
  let offsets_size := Int.to_uint64 (Int.sizeof_uint64 * nelems) in
  let data := 0 + offsets_size in
  let expected_tensor_size := Int.to_uint64 (limit - 0) in
  if negb (Int.to_uint64 (expected_tensor_size - tensor_size) =? 0)
  then Fail (errors.InvalidArgument
               [Str "Invalid/corrupt TF_STRING tensor: expected ";
                Num expected_tensor_size;
                Str " bytes of encoded strings for the tensor containing ";
                Num nelems;
                Str " strings, but the tensor is encoded in ";
                Num tensor_size; Str " bytes"])
  else
    CopyTF_TensorStrings_loop rt tensor_data data limit (Z.to_nat nelems) 0 dst.

(** ** The shape resolver *)

(** Determine the dimensions of the ndarray to be created for an output
    tensor, and its number of elements. *)
Definition GetPyArrayDimensionsForTensor (tensor : TF_Tensor)
  : Outcome (list Z * Z) :=
  let ndims := TF_NumDims tensor in
  if is_TF_RESOURCE (TF_TensorType tensor) then
    if negb (ndims =? 0)
    then Fail (errors.InvalidArgument
                 [Str "Fetching of non-scalar resource tensors is not supported."])
    else
      let dims := [Int.to_int64 (TF_TensorByteSize tensor)] in
      Ok (dims, last dims 0)
  else
    Ok (fold_left
          (fun '(dims, nelems) (dim_i : Z) =>
             let dims' := dims ++ [dim_i] in
             (dims', Int.to_int64 (nelems * last dims' 0)))
          (tensor_dims tensor) ([], 1)).

(** ** The copy converter *)

(** [dst] and [src] are distinct buffers here, on which [memcpy] and
    [memmove] do the same. *)
Definition memcpy (dst src : buffer) (n : Z) : Outcome buffer :=
  bytes <- Mem.load_bytes src 0 n ;; Mem.store_bytes dst 0 bytes.

Definition memmove (dst src : buffer) (n : Z) : Outcome buffer :=
  bytes <- Mem.load_bytes src 0 n ;; Mem.store_bytes dst 0 bytes.

(** The size-specialised copy: a fixed-size [memcpy] for 1 to 16 bytes,
    [memmove] otherwise. *)
Definition FastMemcpy (dst src : buffer) (size : Z) : Outcome buffer :=
  match size with
  | 1 => memcpy dst src 1
  | 2 => memcpy dst src 2
  | 3 => memcpy dst src 3
  | 4 => memcpy dst src 4
  | 5 => memcpy dst src 5
  | 6 => memcpy dst src 6
  | 7 => memcpy dst src 7
  | 8 => memcpy dst src 8
  | 9 => memcpy dst src 9
  | 10 => memcpy dst src 10
  | 11 => memcpy dst src 11
  | 12 => memcpy dst src 12
  | 13 => memcpy dst src 13
  | 14 => memcpy dst src 14
  | 15 => memcpy dst src 15
  | 16 => memcpy dst src 16
  | _ => memmove dst src size
  end.

(** ** The conversion entry points *)

(** Converts the given tensor (possibly null) to a numpy ndarray. *)
Definition TF_TensorToPyArray (rt : Runtime) (tensor : option TF_Tensor)
  : Outcome PyObject :=
  match tensor with
  | None => Ok Py_None
  | Some t =>
      '(dims, nelems) <- GetPyArrayDimensionsForTensor t ;;
      (* reuse the tensor memory when it can be moved *)
      let original := t in
      let aliased :=
        match TF_TensorMaybeMove rt t with
        | Some moved =>
            match ArrayFromMemory rt dims (TF_TensorData moved) (TF_TensorType moved) with
            | Ok out_ndarray => Some out_ndarray
            | _ => None
            end
        | None => None
        end in
      match aliased with
      | Some out_ndarray => Ok out_ndarray
      | None =>
          let t := original in
          (* copy the tensor data into a newly created ndarray *)
          descr <- DataTypeToPyArray_Descr rt (TF_TensorType t) ;;
          match PyArray_Empty rt dims descr with
          | None => Fail (errors.Internal [Str "Could not allocate ndarray"])
          | Some py_array =>
              if is_TF_STRING (TF_TensorType t) then
                out <- CopyTF_TensorStringsToPyArray rt t (Int.to_uint64 nelems) py_array ;;
                Ok (PyNdarray out)
              else if negb (Int.to_uint64 (PyArray_NBYTES py_array) =? TF_TensorByteSize t)
              then Fail (errors.Internal
                           [Str "ndarray was "; Num (PyArray_NBYTES py_array);
                            Str " bytes but TF_Tensor was ";
                            Num (TF_TensorByteSize t); Str " bytes"])
              else
                bytes <- FastMemcpy (PyArray_DATA py_array) (TF_TensorData t)
                           (Int.to_uint64 (PyArray_NBYTES py_array)) ;;
                Ok (PyNdarray (mkArray (array_descr py_array) (array_shape py_array)
                                 (Dense bytes) (NPY_ARRAY_OWNDATA py_array)))
          end
      end
  end.

(** The conversion that prefers the aliased array: string and resource
    tensors take the ordinary conversion, the others go to
    [ArrayFromMemory] directly. *)
Definition TF_TensorToMaybeAliasedPyArray (rt : Runtime) (tensor : TF_Tensor)
  : Outcome PyObject :=
  let dtype := TF_TensorType tensor in
  if is_TF_STRING dtype || is_TF_RESOURCE dtype
  then TF_TensorToPyArray rt (Some tensor)
  else
    let moved := tensor in
    '(dims, _) <- GetPyArrayDimensionsForTensor moved ;;
    ArrayFromMemory rt dims (TF_TensorData moved) dtype.

(** Converts an ndarray to a tensor: a resource or fixed-width array
    lends its buffer to the tensor, a string array is encoded into a new
    buffer. *)
Definition PyArrayToTF_Tensor (rt : Runtime) (ndarray : PyObject)
  : Outcome TF_Tensor :=
  match PyArray_FromAny ndarray with
  | None => Fail (errors.InvalidArgument [Str "Not a ndarray."])
  | Some array =>
      (* convert the numpy dtype to the tensor engine's dtype *)
      dtype <- PyArray_DescrToDataType rt (PyArray_DESCR array) ;;
      let '(dims, nelems) :=
        fold_left
          (fun '(dims, nelems) (shape_i : Z) =>
             (dims ++ [shape_i], Int.to_int64 (nelems * shape_i)))
          (PyArray_SHAPE array) ([], 1) in
      if is_TF_RESOURCE dtype then
        let size := Int.to_uint64 (PyArray_NBYTES array) in
        Ok (TF_NewTensor dtype [] (PyArray_DATA array) size DelayedNumpyDecref)
      else if negb (is_TF_STRING dtype) then
        let size := Int.to_uint64 (PyArray_NBYTES array) in
        Ok (TF_NewTensor dtype dims (PyArray_DATA array) size DelayedNumpyDecref)
      else
        '(size, encoded) <- EncodePyBytesArray array nelems ;;
        Ok (TF_NewTensor dtype dims encoded size delete_char_array)
  end.

(** The element references of an array of byte strings. *)
Definition bytes_elements (ss : list (list byte)) : list (option PyElement) :=
  map (fun s => Some (PyBytes s)) ss.

(** ** A runtime and sample data to run the definitions on *)

Module Sample.

Definition float32 : PyArray_Descr := mkDescr 11 4.
Definition object_ : PyArray_Descr := mkDescr NPY_OBJECT 8.
Definition uint8 : PyArray_Descr := mkDescr 2 1.

(** A lookup that knows three dtypes, nothing fails to allocate, and
    the tensor engine grants a move for engine-allocated buffers. *)
Definition runtime : Runtime :=
  mkRuntime
    (fun d => match d with
              | TF_FLOAT => Ok float32
              | TF_STRING => Ok object_
              | TF_RESOURCE => Ok uint8
              | _ => Fail (errors.Internal
                             [Str "Tensorflow type not convertible to numpy dtype."])
              end)
    (fun descr => if type_num descr =? 11 then Ok TF_FLOAT
                  else if type_num descr =? NPY_OBJECT then Ok TF_STRING
                  else Fail (errors.Internal [Str "Unsupported numpy type"]))
    (fun t => match tensor_deallocator t with engine_allocated => true | _ => false end)
    (fun _ _ => false)
    (fun _ => false)
    (fun _ => false).

Definition x300 : list byte := repeat Byte.x78 300.

(** The three byte strings of the spec's scenario: empty, "ab", and
    "x" 300 times. *)
Definition strings : list (list byte) := [[]; [Byte.x61; Byte.x62]; x300].

Definition bytes_array (ss : list (list byte)) : PyArrayObject :=
  mkArray object_ [zlen ss] (Objects (bytes_elements ss)) true.

(** Two float32 elements, eight bytes. *)
Definition float_array : PyArrayObject :=
  mkArray float32 [2]
    (Dense [Byte.x00; Byte.x00; Byte.x80; Byte.x3f; Byte.x00; Byte.x00; Byte.x00; Byte.x40])
    true.

(** A float tensor of two elements whose buffer has seven bytes; its
    buffer is an ndarray's, so the engine refuses to move it. *)
Definition short_float_tensor : TF_Tensor :=
  mkTensor TF_FLOAT [2] (Mem.new_chars 7) DelayedNumpyDecref.

(** A scalar variant tensor, a dtype the lookup does not know. *)
Definition variant_tensor : TF_Tensor :=
  mkTensor TF_VARIANT [] [] DelayedNumpyDecref.

End Sample.

(** ** The wire format of a string tensor

    The layout the external interface fixes: [n] 64-bit offsets, then one
    record per element, a varint length followed by the bytes; each
    offset is measured from the start of the payload region. *)

Module Wire.

Definition record (s : list byte) : list byte :=
  core.varint_bytes (zlen s) ++ s.

Definition record_size (s : list byte) : Z :=
  core.VarintLength (zlen s) + zlen s.

Fixpoint payload_size (ss : list (list byte)) : Z :=
  match ss with
  | [] => 0
  | s :: rest => record_size s + payload_size rest
  end.

(** The offsets of the records of [ss], the first one being at [o]. *)
Fixpoint offsets (o : Z) (ss : list (list byte)) : list Z :=
  match ss with
  | [] => []
  | s :: rest => o :: offsets (o + record_size s) rest
  end.

Definition header (o : Z) (ss : list (list byte)) : list byte :=
  flat_map (le_split 8) (offsets o ss).

Definition payload (ss : list (list byte)) : list byte :=
  flat_map record ss.

Definition packed (ss : list (list byte)) : buffer :=
  header 0 ss ++ payload ss.

(** The sum over all elements of 8 (offset slot) + varint-length(len)
    + len. *)
Definition total_size (ss : list (list byte)) : Z :=
  fold_right Z.add 0
    (map (fun s => Int.sizeof_uint64 + core.VarintLength (zlen s) + zlen s) ss).

End Wire.

(** The byte views [PyObjectToString] gives for the elements of an
    array, when it gives one for each. *)
Fixpoint byte_views (items : list (option PyElement)) : option (list (list byte)) :=
  match items with
  | [] => Some []
  | Some obj :: rest =>
      match PyObjectToString obj, byte_views rest with
      | Ok s, Some ss => Some (s :: ss)
      | _, _ => None
      end
  | None :: _ => None
  end.

(** Calling [f] on each view in turn. *)
Fixpoint fold_views {S : Type} (f : list byte -> S -> Outcome S)
    (ss : list (list byte)) (s : S) : Outcome S :=
  match ss with
  | [] => Ok s
  | x :: rest => s' <- f x s ;; fold_views f rest s'
  end.

(** The array runtime never fails to allocate a bytes object or to store
    an element. *)
Definition elements_storable (rt : Runtime) : Prop :=
  (forall i, PyBytes_FromStringAndSize_fails rt i = false) /\
  (forall i, PyArray_SETITEM_fails rt i = false).

(** The product of all dimensions; 1 for the empty dimension vector. *)
Definition product (dims : list Z) : Z := fold_right Z.mul 1 dims.

(** The copy path of [TF_TensorToPyArray] is taken: the move was refused,
    or the array could not be built on the tensor's memory. *)
Definition copy_path_taken (rt : Runtime) (t : TF_Tensor) (dims : list Z) : Prop :=
  TF_TensorMaybeMove rt t = None \/
  ok (ArrayFromMemory rt dims (TF_TensorData t) (TF_TensorType t)) = false.

(** The status [PyBytesArrayMap] stops with at an element it cannot take
    the bytes of: no item at all, or the failure of [PyObjectToString]. *)
Definition item_error (item : option PyElement) : option Status :=
  match item with
  | None =>
      Some (errors.Internal [Str "Unable to get element from the feed - no item."])
  | Some obj =>
      match PyObjectToString obj with
      | Fail status => Some status
      | _ => None
      end
  end.

(** ** More sample data *)

Module Cases.

(** The text "ab" and the bytes "ab". *)
Definition text_array : PyArrayObject :=
  mkArray Sample.object_ [1] (Objects [Some (PyUnicode (Some [Byte.x61; Byte.x62]))]) true.

Definition bytes_array : PyArrayObject :=
  mkArray Sample.object_ [1] (Objects [Some (PyBytes [Byte.x61; Byte.x62])]) true.

(** A bytes element followed by a float object. *)
Definition mixed_array : PyArrayObject :=
  mkArray Sample.object_ [2]
    (Objects [Some (PyBytes [Byte.x61]); Some (PyOtherElement "float")]) true.

(** A float tensor whose buffer is the tensor engine's own. *)
Definition engine_float_tensor : TF_Tensor :=
  mkTensor TF_FLOAT [2] (Mem.new_chars 8) engine_allocated.

(** A resource tensor of rank 1. *)
Definition ranked_resource_tensor : TF_Tensor :=
  mkTensor TF_RESOURCE [3] [Byte.x01; Byte.x02; Byte.x03] engine_allocated.

(** A string tensor of one element whose only offset, 5, points past
    its two payload bytes. *)
Definition stray_offset_tensor : TF_Tensor :=
  mkTensor TF_STRING [1] (le_split 8 5 ++ [Byte.x01; Byte.x61]) engine_allocated.

(** A runtime whose lookup takes the uint8 descriptor for the resource
    dtype, in both directions. *)
Definition resource_runtime : Runtime :=
  mkRuntime
    (fun d => match d with
              | TF_RESOURCE => Ok Sample.uint8
              | _ => Fail (errors.Internal
                             [Str "Tensorflow type not convertible to numpy dtype."])
              end)
    (fun descr => if type_num descr =? 2 then Ok TF_RESOURCE
                  else Fail (errors.Internal [Str "Unsupported numpy type"]))
    (fun _ => false)
    (fun _ _ => false)
    (fun _ => false)
    (fun _ => false).

(** Three opaque bytes as a uint8 array of shape [3]. *)
Definition resource_array : PyArrayObject :=
  mkArray Sample.uint8 [3] (Dense [Byte.x01; Byte.x02; Byte.x03]) true.

End Cases.

(** * Properties *)

(** ** Machine integers and lists *)

Lemma to_uint64_small (z : Z) : 0 <= z < 2 ^ 64 -> Int.to_uint64 z = z.
Proof. intros H. unfold Int.to_uint64. apply Z.mod_small; exact H. Qed.

Lemma to_int64_small (z : Z) : - 2 ^ 63 <= z < 2 ^ 63 -> Int.to_int64 z = z.
Proof. intros H. unfold Int.to_int64. rewrite Z.mod_small; lia. Qed.

Lemma zlen_nonneg {A : Type} (l : list A) : 0 <= zlen l.
Proof. unfold zlen; lia. Qed.

Lemma zlen_app {A : Type} (l1 l2 : list A) : zlen (l1 ++ l2) = zlen l1 + zlen l2.
Proof. unfold zlen. rewrite length_app. lia. Qed.

Lemma zlen_cons {A : Type} (x : A) (l : list A) : zlen (x :: l) = 1 + zlen l.
Proof. unfold zlen. cbn [length]. lia. Qed.

Lemma zlen_nil {A : Type} : zlen (@nil A) = 0.
Proof. reflexivity. Qed.

Lemma zlen_repeat {A : Type} (x : A) (n : nat) : zlen (repeat x n) = Z.of_nat n.
Proof. unfold zlen. now rewrite repeat_length. Qed.

Lemma zlen_le_split (n : nat) (v : Z) : zlen (le_split n v) = Z.of_nat n.
Proof. unfold zlen. now rewrite length_le_split. Qed.

Lemma to_nat_zlen {A : Type} (l : list A) : Z.to_nat (zlen l) = length l.
Proof. unfold zlen. apply Nat2Z.id. Qed.

(** A list can be cut at any position within it. *)
Lemma list_cut {A : Type} (l : list A) (n : Z) :
  0 <= n <= zlen l -> exists a b, l = a ++ b /\ zlen a = n.
Proof.
  intros H. exists (firstn (Z.to_nat n) l), (skipn (Z.to_nat n) l). split.
  - symmetry. apply firstn_skipn.
  - unfold zlen in *. rewrite length_firstn. lia.
Qed.

(** ** Buffers *)

Lemma store_bytes_at (a b c b' : list byte) (pos : Z) :
  pos = zlen a -> length b' = length b ->
  Mem.store_bytes (a ++ b ++ c) pos b' = Ok (a ++ b' ++ c).
Proof.
  intros -> Hlen. unfold Mem.store_bytes.
  assert (Hb : zlen b' = zlen b) by (unfold zlen; now rewrite Hlen).
  rewrite !zlen_app, Hb.
  pose proof (zlen_nonneg a). pose proof (zlen_nonneg c).
  replace (0 <=? zlen a) with true by (symmetry; apply Z.leb_le; lia).
  replace (zlen a + zlen b <=? zlen a + (zlen b + zlen c)) with true
    by (symmetry; apply Z.leb_le; lia).
  cbn [andb]. rewrite to_nat_zlen, Hlen.
  rewrite firstn_app, firstn_all, Nat.sub_diag, firstn_O, app_nil_r.
  rewrite skipn_app, (skipn_all2 a) by lia.
  replace (length a + length b - length a)%nat with (length b) by lia.
  rewrite skipn_app, skipn_all, Nat.sub_diag, skipn_O. reflexivity.
Qed.

Lemma load_bytes_at (a b c : list byte) (pos len : Z) :
  pos = zlen a -> len = zlen b ->
  Mem.load_bytes (a ++ b ++ c) pos len = Ok b.
Proof.
  intros -> ->. unfold Mem.load_bytes. rewrite !zlen_app.
  pose proof (zlen_nonneg a). pose proof (zlen_nonneg b). pose proof (zlen_nonneg c).
  replace (0 <=? zlen a) with true by (symmetry; apply Z.leb_le; lia).
  replace (0 <=? zlen b) with true by (symmetry; apply Z.leb_le; lia).
  replace (zlen a + zlen b <=? zlen a + (zlen b + zlen c)) with true
    by (symmetry; apply Z.leb_le; lia).
  cbn [andb]. rewrite !to_nat_zlen.
  rewrite skipn_app, skipn_all, Nat.sub_diag, skipn_O. cbn [app].
  rewrite firstn_app, firstn_all, Nat.sub_diag, firstn_O, app_nil_r. reflexivity.
Qed.

Lemma load_uint64_at (a c : list byte) (pos v : Z) :
  pos = zlen a -> 0 <= v < 2 ^ 64 ->
  Mem.load_uint64 (a ++ le_split 8 v ++ c) pos = Ok v.
Proof.
  intros Hpos Hv. unfold Mem.load_uint64.
  rewrite (load_bytes_at a (le_split 8 v) c) by (rewrite ?zlen_le_split; auto).
  cbn [bind]. rewrite le_combine_split. f_equal. apply Z.mod_small. exact Hv.
Qed.

Lemma window_at (a b : list byte) (p limit : Z) :
  p = zlen a -> limit = zlen (a ++ b) -> Mem.window (a ++ b) p limit = b.
Proof.
  intros -> ->. unfold Mem.window. rewrite zlen_app.
  replace (zlen a + zlen b - zlen a) with (zlen b) by lia.
  rewrite !to_nat_zlen, skipn_app, skipn_all, Nat.sub_diag, skipn_O.
  cbn [app]. apply firstn_all.
Qed.

Lemma new_chars_split (m n : Z) :
  0 <= m -> 0 <= n -> Mem.new_chars (m + n) = Mem.new_chars m ++ Mem.new_chars n.
Proof.
  intros Hm Hn. unfold Mem.new_chars. rewrite Z2Nat.inj_add by lia.
  apply repeat_app.
Qed.

Lemma zlen_new_chars (n : Z) : 0 <= n -> zlen (Mem.new_chars n) = n.
Proof. intros H. unfold Mem.new_chars. rewrite zlen_repeat. lia. Qed.

(** ** Varints *)

(** Finishes the bitwise goals that [Z.bitblast] leaves. *)
Ltac bits :=
  Z.bitblast;
  repeat match goal with
         | |- context [?a =? ?b] => destruct (Z.eqb_spec a b); try lia
         | |- context [Z.testbit ?v ?i] => rewrite (Z.testbit_neg_r v i) by lia
         end;
  cbn [negb andb orb];
  rewrite ?andb_true_r, ?andb_false_r, ?orb_false_r, ?orb_true_r;
  try reflexivity.

Lemma continuation_byte (v : Z) :
  let b := byte.unsigned (byte.of_Z (Z.lor (Z.land v 127) 128)) in
  Z.land b 128 = 128 /\ Z.land b 127 = Z.land v 127.
Proof.
  cbv zeta. rewrite byte.unsigned_of_Z. unfold byte.wrap.
  rewrite <- Z.land_ones by lia.
  change 127 with (Z.ones 7). change 128 with (2 ^ 7).
  split; bits.
Qed.

Lemma final_byte (v : Z) :
  0 <= v < 128 ->
  byte.unsigned (byte.of_Z v) = v /\ Z.land v 128 = 0.
Proof.
  intros H. rewrite byte.unsigned_of_Z. unfold byte.wrap. split.
  - apply Z.mod_small. lia.
  - change 128 with (2 ^ 7). apply Z.bits_inj'. intros i Hi.
    rewrite Z.land_spec, Z.bits_0, Z.pow2_bits_eqb by lia.
    destruct (Z.eqb_spec 7 i) as [<- | Hne].
    + rewrite (Z.bits_above_log2 v 7); [reflexivity | lia |].
      destruct (Z.eq_dec v 0) as [-> | Hv]; [cbn; lia |].
      apply Z.log2_lt_pow2; lia.
    + apply andb_false_r.
Qed.

Lemma shiftr7_bound (v k : Z) :
  0 <= k -> 0 <= v < 2 ^ (k + 7) -> 0 <= Z.shiftr v 7 < 2 ^ k.
Proof.
  intros Hk Hv. rewrite Z.shiftr_div_pow2 by lia. split.
  - apply Z.div_pos; lia.
  - apply Z.div_lt_upper_bound; [lia |]. rewrite <- Z.pow_add_r by lia.
    replace (7 + k) with (k + 7) by lia. lia.
Qed.

(** The two loops of the varint coder walk the value in step. *)
Lemma VarintLength_loop_spec (fuel : nat) (v len : Z) :
  core.VarintLength_loop fuel v len = len - 1 + zlen (core.EncodeVarint64_loop fuel v).
Proof.
  revert v len. induction fuel as [| fuel IH]; intros v len;
    cbn [core.VarintLength_loop core.EncodeVarint64_loop].
  - rewrite zlen_cons, zlen_nil. lia.
  - destruct (128 <=? v).
    + rewrite IH, zlen_cons. lia.
    + rewrite zlen_cons, zlen_nil. lia.
Qed.

Lemma VarintLength_bytes (v : Z) : core.VarintLength v = zlen (core.varint_bytes v).
Proof.
  unfold core.VarintLength, core.varint_bytes. rewrite VarintLength_loop_spec. lia.
Qed.

Lemma EncodeVarint64_loop_length (fuel : nat) (v : Z) :
  1 <= zlen (core.EncodeVarint64_loop fuel v) <= Z.of_nat fuel + 1.
Proof.
  revert v. induction fuel as [| fuel IH]; intros v; cbn [core.EncodeVarint64_loop].
  - rewrite zlen_cons, zlen_nil. lia.
  - destruct (128 <=? v).
    + rewrite zlen_cons. specialize (IH (Z.shiftr v 7)). lia.
    + rewrite zlen_cons, zlen_nil. lia.
Qed.

Lemma EncodeVarint64_loop_S (fuel : nat) (v : Z) :
  core.EncodeVarint64_loop (S fuel) v
  = if 128 <=? v
    then byte.of_Z (Z.lor (Z.land v 127) 128)
           :: core.EncodeVarint64_loop fuel (Z.shiftr v 7)
    else [byte.of_Z v].
Proof. reflexivity. Qed.

(** One more round than a value needs changes nothing: ten rounds are
    enough for every [uint64]. *)
Lemma varint_round_spare (fuel : nat) :
  forall v : Z,
    0 <= v < 2 ^ (7 * (Z.of_nat fuel + 1)) ->
    core.EncodeVarint64_loop (S fuel) v = core.EncodeVarint64_loop fuel v.
Proof.
  induction fuel as [| fuel IH]; intros v Hv.
  - cbn [core.EncodeVarint64_loop].
    replace (128 <=? v) with false; [reflexivity |].
    symmetry. apply Z.leb_gt. cbn in Hv. lia.
  - rewrite (EncodeVarint64_loop_S (S fuel) v), (EncodeVarint64_loop_S fuel v).
    destruct (128 <=? v); [| reflexivity].
    rewrite IH; [reflexivity |].
    apply shiftr7_bound; [lia |].
    replace (7 * (Z.of_nat fuel + 1) + 7) with (7 * (Z.of_nat (S fuel) + 1)) by lia.
    exact Hv.
Qed.

Lemma varint_rounds_suffice (extra : nat) (v : Z) :
  0 <= v < 2 ^ 64 ->
  core.EncodeVarint64_loop (extra + core.varint_rounds) v
  = core.EncodeVarint64_loop core.varint_rounds v /\
  core.VarintLength_loop (extra + core.varint_rounds) v 1
  = core.VarintLength_loop core.varint_rounds v 1.
Proof.
  intros Hv.
  assert (E : core.EncodeVarint64_loop (extra + core.varint_rounds) v
              = core.EncodeVarint64_loop core.varint_rounds v).
  { induction extra as [| extra IH]; [reflexivity |].
    cbn [Nat.add]. rewrite varint_round_spare; [exact IH |].
    split; [lia |]. apply Z.lt_le_trans with (2 ^ 64); [lia |].
    apply Z.pow_le_mono_r; unfold core.varint_rounds; lia. }
  split; [exact E |]. now rewrite !VarintLength_loop_spec, E.
Qed.

Lemma VarintLength_range (v : Z) : 1 <= core.VarintLength v <= 11.
Proof.
  rewrite VarintLength_bytes. unfold core.varint_bytes.
  pose proof (EncodeVarint64_loop_length core.varint_rounds (Int.to_uint64 v)) as H.
  unfold core.varint_rounds in *. lia.
Qed.

(** Reading back what the encoder wrote: with enough rounds for [v] and
    room below bit 64, the reader returns [v], shifted into place, and
    stops right after the encoder's bytes. *)
Lemma GetVarint64_loop_encode (fuel : nat) :
  forall (v shift result p : Z) (rest : list byte),
    0 <= shift <= 63 ->
    0 <= v < 2 ^ (64 - shift) ->
    v < 2 ^ (7 * (Z.of_nat fuel + 1)) ->
    core.GetVarint64_loop (core.EncodeVarint64_loop fuel v ++ rest) shift result p
    = Some (p + zlen (core.EncodeVarint64_loop fuel v),
            Z.lor result (Z.shiftl v shift)).
Proof.
  induction fuel as [| fuel IH]; intros v shift result p rest Hs Hv Hfuel.
  - cbn [core.EncodeVarint64_loop app core.GetVarint64_loop].
    replace (shift <=? 63) with true by (symmetry; apply Z.leb_le; lia).
    assert (Hv' : 0 <= v < 128) by (cbn in Hfuel; lia).
    destruct (final_byte v Hv') as [E1 E2]. cbv zeta. rewrite E1, E2.
    cbn [Z.eqb negb]. rewrite zlen_cons, zlen_nil.
    rewrite to_uint64_small; [reflexivity |].
    rewrite Z.shiftl_mul_pow2 by lia. split; [lia |].
    replace (2 ^ 64) with (2 ^ (64 - shift) * 2 ^ shift)
      by (rewrite <- Z.pow_add_r by lia; f_equal; lia).
    apply Z.mul_lt_mono_pos_r; lia.
  - cbn [core.EncodeVarint64_loop].
    destruct (Z.leb_spec 128 v) as [Hbig | Hsmall].
    + cbn [app core.GetVarint64_loop].
      replace (shift <=? 63) with true by (symmetry; apply Z.leb_le; lia).
      destruct (continuation_byte v) as [E1 E2]. cbv zeta in E1, E2.
      cbv zeta. rewrite E1, E2. cbn [Z.eqb negb].
      assert (Hshift : shift + 7 <= 63).
      { destruct (Z_le_gt_dec (shift + 7) 63) as [Hle | Hgt]; [exact Hle |].
        exfalso. assert (2 ^ (64 - shift) <= 2 ^ 7) by (apply Z.pow_le_mono_r; lia).
        lia. }
      assert (Hv7 : 0 <= Z.shiftr v 7 < 2 ^ (64 - (shift + 7))).
      { apply shiftr7_bound; [lia |].
        replace (64 - (shift + 7) + 7) with (64 - shift) by lia. exact Hv. }
      assert (Hf7 : Z.shiftr v 7 < 2 ^ (7 * (Z.of_nat fuel + 1))).
      { apply (shiftr7_bound v (7 * (Z.of_nat fuel + 1))); [lia |].
        replace (7 * (Z.of_nat fuel + 1) + 7) with (7 * (Z.of_nat (S fuel) + 1)) by lia.
        lia. }
      rewrite IH by (try lia; assumption).
      rewrite zlen_cons. f_equal. f_equal; [lia |].
      rewrite to_uint64_small.
      * change 127 with (Z.ones 7). bits.
      * rewrite Z.shiftl_mul_pow2 by lia. split.
        { apply Z.mul_nonneg_nonneg; [| lia]. apply Z.land_nonneg. lia. }
        { replace (2 ^ 64) with (2 ^ 7 * 2 ^ 57) by reflexivity.
          assert (Hl : 0 <= Z.land v 127 < 2 ^ 7).
          { change 127 with (Z.ones 7). rewrite Z.land_ones by lia.
            apply Z.mod_pos_bound. lia. }
          assert (Hp : 0 < 2 ^ shift <= 2 ^ 57).
          { split; [lia |]. apply Z.pow_le_mono_r; lia. }
          nia. }
    + cbn [app core.GetVarint64_loop].
      replace (shift <=? 63) with true by (symmetry; apply Z.leb_le; lia).
      assert (Hv' : 0 <= v < 128) by lia.
      destruct (final_byte v Hv') as [E1 E2]. cbv zeta. rewrite E1, E2.
      cbn [Z.eqb negb]. rewrite zlen_cons, zlen_nil.
      rewrite to_uint64_small; [reflexivity |].
      rewrite Z.shiftl_mul_pow2 by lia. split; [lia |].
      replace (2 ^ 64) with (2 ^ (64 - shift) * 2 ^ shift)
        by (rewrite <- Z.pow_add_r by lia; f_equal; lia).
      apply Z.mul_lt_mono_pos_r; lia.
Qed.

(** ** The encoder against the wire format *)

Lemma PyBytesArrayMap_iter_views {S : Type} (f : list byte -> S -> Outcome S) :
  forall (items : list (option PyElement)) (ss : list (list byte)) (s : S),
    byte_views items = Some ss ->
    PyBytesArrayMap_iter items f s = fold_views f ss s.
Proof.
  induction items as [| item items IH]; intros ss s Hv; cbn in Hv.
  - injection Hv as <-. reflexivity.
  - destruct item as [obj |]; [| discriminate].
    destruct (PyObjectToString obj) as [x | |] eqn:Ex; try discriminate.
    destruct (byte_views items) as [ss' |] eqn:Es; [| discriminate].
    injection Hv as <-. cbn [PyBytesArrayMap_iter fold_views]. rewrite Ex.
    cbn [bind]. destruct (f x s) as [s' | |]; cbn [bind]; auto.
Qed.

Lemma byte_views_bytes (ss : list (list byte)) :
  byte_views (bytes_elements ss) = Some ss.
Proof.
  unfold bytes_elements. induction ss as [| s ss IH]; cbn; [reflexivity |].
  now rewrite IH.
Qed.

Lemma byte_views_length :
  forall (items : list (option PyElement)) (ss : list (list byte)),
    byte_views items = Some ss -> zlen ss = zlen items.
Proof.
  induction items as [| item items IH]; intros ss Hv; cbn in Hv.
  - injection Hv as <-. reflexivity.
  - destruct item as [obj |]; [| discriminate].
    destruct (PyObjectToString obj); try discriminate.
    destruct (byte_views items) as [ss' |]; [| discriminate].
    injection Hv as <-. rewrite !zlen_cons, (IH ss' eq_refl). reflexivity.
Qed.

Lemma record_size_pos (s : list byte) : 1 <= Wire.record_size s.
Proof.
  unfold Wire.record_size. pose proof (VarintLength_range (zlen s)).
  pose proof (zlen_nonneg s). lia.
Qed.

Lemma payload_size_nonneg (ss : list (list byte)) : 0 <= Wire.payload_size ss.
Proof.
  induction ss as [| s ss IH]; cbn [Wire.payload_size]; [lia |].
  pose proof (record_size_pos s). lia.
Qed.

Lemma total_size_split (ss : list (list byte)) :
  Wire.total_size ss = Int.sizeof_uint64 * zlen ss + Wire.payload_size ss.
Proof.
  unfold Wire.total_size, Int.sizeof_uint64.
  induction ss as [| s ss IH]; cbn [map fold_right Wire.payload_size].
  - reflexivity.
  - rewrite IH, zlen_cons. unfold Wire.record_size. lia.
Qed.

Lemma zlen_record (s : list byte) : zlen (Wire.record s) = Wire.record_size s.
Proof.
  unfold Wire.record, Wire.record_size. now rewrite zlen_app, VarintLength_bytes.
Qed.

Lemma zlen_payload (ss : list (list byte)) :
  zlen (Wire.payload ss) = Wire.payload_size ss.
Proof.
  unfold Wire.payload. induction ss as [| s ss IH]; cbn [flat_map Wire.payload_size].
  - reflexivity.
  - now rewrite zlen_app, zlen_record, IH.
Qed.

Lemma zlen_header (o : Z) (ss : list (list byte)) :
  zlen (Wire.header o ss) = Int.sizeof_uint64 * zlen ss.
Proof.
  unfold Wire.header, Int.sizeof_uint64. revert o.
  induction ss as [| s ss IH]; intros o; cbn [Wire.offsets flat_map].
  - reflexivity.
  - rewrite zlen_app, zlen_le_split, IH, zlen_cons. lia.
Qed.

(** The measuring pass adds up the sizes, as long as the sum fits
    [size_t]. *)
Lemma measure_views :
  forall (ss : list (list byte)) (acc : Z),
    0 <= acc -> acc + Wire.total_size ss < 2 ^ 64 ->
    fold_views measure_element ss acc = Ok (acc + Wire.total_size ss).
Proof.
  induction ss as [| s ss IH]; intros acc Hacc Hfit.
  - cbn. f_equal. unfold Wire.total_size. cbn. lia.
  - cbn [fold_views]. unfold measure_element at 1. cbn [bind].
    assert (Hs : Wire.total_size (s :: ss)
                 = Int.sizeof_uint64 + core.VarintLength (zlen s) + zlen s
                   + Wire.total_size ss) by reflexivity.
    pose proof (VarintLength_range (zlen s)). pose proof (zlen_nonneg s).
    assert (0 <= Wire.total_size ss).
    { rewrite total_size_split. pose proof (payload_size_nonneg ss).
      pose proof (zlen_nonneg ss). unfold Int.sizeof_uint64. lia. }
    unfold Int.sizeof_uint64 in *.
    rewrite to_uint64_small by lia.
    rewrite IH by lia. f_equal. lia.
Qed.

Lemma store_bytes_in (mem a b c b' : list byte) (pos : Z) :
  mem = a ++ b ++ c -> pos = zlen a -> zlen b' = zlen b ->
  Mem.store_bytes mem pos b' = Ok (a ++ b' ++ c).
Proof.
  intros -> Hp Hl. apply store_bytes_at; [exact Hp |]. unfold zlen in Hl. lia.
Qed.

Lemma zlen_0_nil {A : Type} (l : list A) : zlen l = 0 -> l = [].
Proof. destruct l; [reflexivity |]. rewrite zlen_cons. pose proof (zlen_nonneg l). lia. Qed.

(** The fill pass, started on a buffer whose header region still has
    [Hr] to fill and whose payload region still has [Rr] to fill, leaves
    the offsets and the records of the wire format in their place. *)
Lemma fill_views :
  forall (ss : list (list byte)) (h Hr r Rr : list byte) (data_start : Z),
    zlen Hr = Int.sizeof_uint64 * zlen ss ->
    zlen Rr = Wire.payload_size ss ->
    data_start = zlen h + zlen Hr ->
    zlen r + Wire.payload_size ss < 2 ^ 64 ->
    fold_views (encode_element data_start) ss
      (mkEncodeState (h ++ Hr ++ r ++ Rr) (data_start + zlen r) (zlen h))
    = Ok (mkEncodeState (h ++ Wire.header (zlen r) ss ++ r ++ Wire.payload ss)
            (data_start + zlen r + Wire.payload_size ss)
            (zlen h + Int.sizeof_uint64 * zlen ss)).
Proof.
  unfold Int.sizeof_uint64.
  induction ss as [| s ss IH]; intros h Hr r Rr data_start HHr HRr Hds Hfit.
  - cbn [fold_views Wire.payload_size] in *.
    change (zlen (@nil (list byte))) with 0 in *.
    apply zlen_0_nil in HHr. apply zlen_0_nil in HRr. subst Hr Rr.
    cbn [Wire.header Wire.offsets Wire.payload flat_map app].
    f_equal. f_equal; lia.
  - cbn [Wire.payload_size] in HRr, Hfit. rewrite zlen_cons in HHr.
    pose proof (zlen_nonneg ss) as Hss. pose proof (zlen_nonneg s) as Hs.
    pose proof (zlen_nonneg r) as Hr0. pose proof (payload_size_nonneg ss) as Hps.
    pose proof (VarintLength_range (zlen s)) as Hvl.
    destruct (list_cut Hr 8) as (Hr1 & Hr' & -> & HHr1); [lia |].
    rewrite zlen_app in HHr, Hds.
    destruct (list_cut Rr (core.VarintLength (zlen s))) as (V & Rr0 & -> & HV);
      [unfold Wire.record_size in HRr; lia |].
    rewrite zlen_app in HRr.
    destruct (list_cut Rr0 (zlen s)) as (P & Rr' & -> & HP);
      [unfold Wire.record_size in HRr; lia |].
    rewrite zlen_app in HRr. unfold Wire.record_size in HRr, Hfit.
    cbn [fold_views]. unfold encode_element at 1.
    cbn [enc_mem enc_dst enc_offsets]. unfold Int.sizeof_uint64.
    replace (data_start + zlen r - data_start) with (zlen r) by lia.
    rewrite (to_uint64_small (zlen r)) by lia.
    unfold Mem.store_uint64.
    rewrite (store_bytes_in _ h Hr1 (Hr' ++ r ++ V ++ P ++ Rr') (le_split 8 (zlen r)))
      by (rewrite <- ?app_assoc, ?zlen_le_split; auto; lia).
    cbn [bind]. unfold core.EncodeVarint64.
    rewrite (store_bytes_in _ (h ++ le_split 8 (zlen r) ++ Hr' ++ r) V (P ++ Rr')
               (core.varint_bytes (zlen s)))
      by (rewrite <- ?app_assoc, ?zlen_app, ?zlen_le_split, <- ?VarintLength_bytes;
          auto; lia).
    cbn [bind]. rewrite <- VarintLength_bytes.
    rewrite (store_bytes_in _
               ((h ++ le_split 8 (zlen r) ++ Hr' ++ r) ++ core.varint_bytes (zlen s))
               P Rr' s)
      by (rewrite <- ?app_assoc, ?zlen_app, ?zlen_le_split, <- ?VarintLength_bytes;
          auto; lia).
    cbn [bind].
    specialize (IH (h ++ le_split 8 (zlen r)) Hr' (r ++ Wire.record s) Rr' data_start).
    rewrite !zlen_app, zlen_le_split, zlen_record in IH.
    unfold Wire.record_size, Wire.record in IH.
    replace (((h ++ le_split 8 (zlen r) ++ Hr' ++ r) ++ core.varint_bytes (zlen s))
               ++ s ++ Rr')
      with ((h ++ le_split 8 (zlen r)) ++ Hr' ++ (r ++ core.varint_bytes (zlen s) ++ s)
              ++ Rr')
      by (rewrite <- !app_assoc; reflexivity).
    replace (data_start + zlen r + core.VarintLength (zlen s) + zlen s)
      with (data_start + (zlen r + (core.VarintLength (zlen s) + zlen s))) by lia.
    replace (zlen h + 8) with (zlen h + Z.of_nat 8) by lia.
    rewrite IH by lia.
    f_equal. f_equal.
    + cbn [Wire.header Wire.offsets Wire.payload flat_map].
      unfold Wire.header, Wire.payload, Wire.record, Wire.record_size.
      rewrite <- !app_assoc. reflexivity.
    + cbn [Wire.payload_size]. unfold Wire.record_size. lia.
    + rewrite zlen_cons. lia.
Qed.

Lemma total_size_nonneg (ss : list (list byte)) : 0 <= Wire.total_size ss.
Proof.
  rewrite total_size_split. pose proof (payload_size_nonneg ss).
  pose proof (zlen_nonneg ss). unfold Int.sizeof_uint64. lia.
Qed.

Lemma measure_pass_views (array : PyArrayObject) (ss : list (list byte)) :
  byte_views (PyArray_items array) = Some ss ->
  Wire.total_size ss < 2 ^ 64 ->
  measure_pass array = Ok (Wire.total_size ss).
Proof.
  intros Hv Hfit. unfold measure_pass, PyBytesArrayMap.
  rewrite (PyBytesArrayMap_iter_views _ _ ss) by exact Hv.
  rewrite measure_views by lia. reflexivity.
Qed.

Lemma fill_pass_views (array : PyArrayObject) (ss : list (list byte)) :
  byte_views (PyArray_items array) = Some ss ->
  Wire.total_size ss < 2 ^ 64 ->
  fill_pass array (zlen ss) (Wire.total_size ss)
  = Ok (mkEncodeState (Wire.packed ss) (Wire.total_size ss)
          (Int.sizeof_uint64 * zlen ss)).
Proof.
  intros Hv Hfit. unfold fill_pass, PyBytesArrayMap.
  rewrite (PyBytesArrayMap_iter_views _ _ ss) by exact Hv.
  pose proof (zlen_nonneg ss) as Hn. pose proof (payload_size_nonneg ss) as Hp.
  rewrite total_size_split in *. unfold Int.sizeof_uint64 in *.
  rewrite to_uint64_small by lia.
  rewrite new_chars_split by lia.
  pose proof (fill_views ss [] (Mem.new_chars (8 * zlen ss)) []
                (Mem.new_chars (Wire.payload_size ss)) (8 * zlen ss)) as H.
  unfold Int.sizeof_uint64 in H. rewrite !zlen_new_chars in H by lia.
  change (zlen (@nil byte)) with 0 in H.
  cbn [app] in H. rewrite Z.add_0_r in H. rewrite H by lia.
  f_equal.
Qed.

Lemma EncodePyBytesArray_packed (array : PyArrayObject) (ss : list (list byte)) :
  byte_views (PyArray_items array) = Some ss ->
  Wire.total_size ss < 2 ^ 64 ->
  EncodePyBytesArray array (zlen ss) = Ok (Wire.total_size ss, Wire.packed ss).
Proof.
  intros Hv Hfit. unfold EncodePyBytesArray.
  rewrite (measure_pass_views array ss Hv Hfit). cbn [bind].
  rewrite (fill_pass_views array ss Hv Hfit). cbn [bind enc_dst enc_mem].
  rewrite Z.eqb_refl. reflexivity.
Qed.

Lemma zlen_packed (ss : list (list byte)) : zlen (Wire.packed ss) = Wire.total_size ss.
Proof.
  unfold Wire.packed. now rewrite zlen_app, zlen_header, zlen_payload, total_size_split.
Qed.

(** ** The decoder on the wire format *)

Lemma payload_size_app (ds rest : list (list byte)) :
  Wire.payload_size (ds ++ rest) = Wire.payload_size ds + Wire.payload_size rest.
Proof.
  induction ds as [| d ds IH]; cbn [app Wire.payload_size]; [reflexivity |].
  rewrite IH. lia.
Qed.

Lemma header_app (ds rest : list (list byte)) (o : Z) :
  Wire.header o (ds ++ rest)
  = Wire.header o ds ++ Wire.header (o + Wire.payload_size ds) rest.
Proof.
  unfold Wire.header. revert o.
  induction ds as [| d ds IH]; intros o; cbn [app Wire.offsets flat_map Wire.payload_size].
  - now rewrite Z.add_0_r.
  - rewrite IH, <- app_assoc, Z.add_assoc. reflexivity.
Qed.

Lemma payload_app (ds rest : list (list byte)) :
  Wire.payload (ds ++ rest) = Wire.payload ds ++ Wire.payload rest.
Proof. unfold Wire.payload. apply flat_map_app. Qed.

Lemma list_at {A : Type} (l : list A) (i : Z) :
  0 <= i < zlen l -> exists ds x rest, l = ds ++ x :: rest /\ zlen ds = i.
Proof.
  intros H. destruct (list_cut l i) as (ds & tl & -> & Hds); [lia |].
  destruct tl as [| x rest].
  - rewrite app_nil_r in H. lia.
  - now exists ds, x, rest.
Qed.

Section DecodePacked.

Variables (ds rest : list (list byte)) (s : list byte).

Let ss := ds ++ s :: rest.
Let mem := Wire.packed ss.
Let data := Int.sizeof_uint64 * zlen ss.
Let start := data + Wire.payload_size ds.

Hypothesis fits : Wire.total_size ss < 2 ^ 64.

Lemma packed_bounds :
  0 <= data /\ 0 <= Wire.payload_size ds /\
  start + Wire.record_size s + Wire.payload_size rest = zlen mem /\
  zlen mem < 2 ^ 64 /\ 0 <= zlen s /\ 1 <= core.VarintLength (zlen s) /\
  0 <= Wire.payload_size rest.
Proof.
  subst start data mem. rewrite zlen_packed. rewrite total_size_split in *.
  subst ss. rewrite payload_size_app in *. cbn [Wire.payload_size] in *.
  pose proof (payload_size_nonneg ds). pose proof (payload_size_nonneg rest).
  pose proof (zlen_nonneg (ds ++ s :: rest)). pose proof (zlen_nonneg s).
  pose proof (VarintLength_range (zlen s)).
  unfold Int.sizeof_uint64 in *. repeat split; lia.
Qed.

Lemma packed_offset :
  Mem.load_uint64 mem (Int.sizeof_uint64 * zlen ds) = Ok (Wire.payload_size ds).
Proof.
  destruct packed_bounds as (H1 & H2 & H3 & H4 & H5 & H6 & H7).
  pose proof (record_size_pos s).
  subst mem ss. unfold Wire.packed. rewrite header_app.
  cbn [Wire.header Wire.offsets flat_map]. rewrite Z.add_0_l, <- !app_assoc.
  apply load_uint64_at.
  - fold (Wire.header 0 ds). now rewrite zlen_header.
  - lia.
Qed.

Lemma packed_split :
  mem = (Wire.header 0 ss ++ Wire.payload ds)
          ++ core.varint_bytes (zlen s) ++ s ++ Wire.payload rest.
Proof.
  subst mem. unfold Wire.packed. subst ss. rewrite payload_app.
  cbn [Wire.payload flat_map]. unfold Wire.record.
  rewrite <- !app_assoc. reflexivity.
Qed.

Lemma packed_start : zlen (Wire.header 0 ss ++ Wire.payload ds) = start.
Proof. rewrite zlen_app, zlen_header, zlen_payload. reflexivity. Qed.

Lemma packed_decode :
  TF_StringDecode mem start (Int.to_uint64 (zlen mem - start))
  = Ok (start + core.VarintLength (zlen s), zlen s).
Proof.
  destruct packed_bounds as (H1 & H2 & H3 & H4 & H5 & H6 & H7).
  unfold Wire.record_size in H3.
  unfold TF_StringDecode.
  rewrite (to_uint64_small (zlen mem - start)) by lia.
  replace (start + (zlen mem - start)) with (zlen mem) by lia.
  rewrite (to_uint64_small (zlen mem)) by (pose proof (zlen_nonneg mem); lia).
  unfold core.GetVarint64Ptr.
  rewrite packed_split at 1.
  rewrite window_at; [| now rewrite packed_start | now rewrite <- packed_split].
  unfold core.varint_bytes. rewrite (to_uint64_small (zlen s)) by lia.
  rewrite GetVarint64_loop_encode.
  - rewrite Z.shiftl_0_r, Z.lor_0_l.
    replace (core.EncodeVarint64_loop core.varint_rounds (zlen s))
      with (core.varint_bytes (zlen s))
      by (unfold core.varint_bytes; now rewrite to_uint64_small by lia).
    rewrite <- VarintLength_bytes.
    replace (zlen mem - (start + core.VarintLength (zlen s)) <? zlen s) with false
      by (symmetry; apply Z.ltb_ge; lia).
    reflexivity.
  - lia.
  - change (64 - 0) with 64. lia.
  - unfold core.varint_rounds. change (7 * (Z.of_nat 10 + 1)) with 77.
    assert (2 ^ 64 < 2 ^ 77) by (apply Z.pow_lt_mono_r; lia). lia.
Qed.

Lemma packed_bytes :
  Mem.load_bytes mem (start + core.VarintLength (zlen s)) (zlen s) = Ok s.
Proof.
  rewrite packed_split.
  replace ((Wire.header 0 ss ++ Wire.payload ds)
             ++ core.varint_bytes (zlen s) ++ s ++ Wire.payload rest)
    with (((Wire.header 0 ss ++ Wire.payload ds) ++ core.varint_bytes (zlen s))
            ++ s ++ Wire.payload rest)
    by (rewrite <- !app_assoc; reflexivity).
  apply load_bytes_at; [| reflexivity].
  rewrite zlen_app, packed_start, VarintLength_bytes. reflexivity.
Qed.

End DecodePacked.

Lemma set_item_at {A : Type} (done pending : list A) (old x : A) (i : Z) :
  i = zlen done ->
  set_item (done ++ old :: pending) i x = (done ++ [x]) ++ pending.
Proof.
  intros ->. unfold set_item. rewrite to_nat_zlen.
  rewrite firstn_app, firstn_all, Nat.sub_diag, firstn_O, app_nil_r.
  replace (S (length done)) with (1 + length done)%nat by lia.
  rewrite <- skipn_skipn, skipn_app, skipn_all, Nat.sub_diag, skipn_O.
  cbn [app skipn]. rewrite <- app_assoc. reflexivity.
Qed.

(** The decoding loop, resumed at element [zlen ds] of a packed buffer,
    stores the remaining strings into the remaining slots. *)
Lemma CopyTF_TensorStrings_loop_packed (rt : Runtime) (ss : list (list byte))
    (descr : PyArray_Descr) (shape : list Z) (own : bool) :
  elements_storable rt ->
  Wire.total_size ss < 2 ^ 64 ->
  forall (rest ds : list (list byte)) (done pending : list (option PyElement)),
    ss = ds ++ rest ->
    zlen done = zlen ds ->
    zlen pending = zlen rest ->
    CopyTF_TensorStrings_loop rt (Wire.packed ss) (Int.sizeof_uint64 * zlen ss)
      (zlen (Wire.packed ss)) (length rest) (zlen ds)
      (mkArray descr shape (Objects (done ++ pending)) own)
    = Ok (mkArray descr shape (Objects (done ++ bytes_elements rest)) own).
Proof.
  intros [Halloc Hset] Hfit.
  induction rest as [| s rest IH]; intros ds done pending Hss Hdone Hpending.
  - change (zlen (@nil (list byte))) with 0 in Hpending.
    apply zlen_0_nil in Hpending. subst pending. reflexivity.
  - destruct pending as [| old pending];
      [rewrite zlen_cons in Hpending; change (zlen (@nil (option PyElement))) with 0 in Hpending;
       pose proof (zlen_nonneg rest); lia |].
    rewrite !zlen_cons in Hpending.
    cbn [length CopyTF_TensorStrings_loop].
    subst ss.
    rewrite (packed_offset ds rest s Hfit). cbn [bind].
    destruct (packed_bounds ds rest s Hfit) as (H1 & H2 & H3 & H4 & H5 & H6 & H7).
    rewrite to_uint64_small by (pose proof (record_size_pos s); lia).
    rewrite (packed_decode ds rest s Hfit).
    rewrite (packed_bytes ds rest s). cbn [bind].
    rewrite Halloc. unfold PyArray_SETITEM. cbn [array_contents].
    rewrite zlen_app, zlen_cons.
    pose proof (zlen_nonneg ds). pose proof (zlen_nonneg pending).
    replace (0 <=? zlen ds) with true by (symmetry; apply Z.leb_le; lia).
    replace (zlen ds <? zlen done + (1 + zlen pending)) with true
      by (symmetry; apply Z.ltb_lt; lia).
    cbn [andb]. rewrite Hset. cbn [bind array_descr array_shape NPY_ARRAY_OWNDATA].
    rewrite set_item_at by lia.
    specialize (IH (ds ++ [s]) (done ++ [Some (PyBytes s)]) pending).
    assert (Eds : zlen (ds ++ [s]) = zlen ds + 1)
      by (rewrite zlen_app, zlen_cons; reflexivity).
    assert (Edone : zlen (done ++ [Some (PyBytes s)]) = zlen done + 1)
      by (rewrite zlen_app, zlen_cons; reflexivity).
    rewrite Eds, Edone in IH.
    rewrite IH by (rewrite <- ?app_assoc; auto; lia).
    unfold bytes_elements. cbn [map]. rewrite <- app_assoc. reflexivity.
Qed.

Lemma CopyTF_TensorStringsToPyArray_packed (rt : Runtime) (ss : list (list byte))
    (dims : list Z) (dealloc : Deallocator) (dst : PyArrayObject)
    (pending : list (option PyElement)) :
  elements_storable rt ->
  Wire.total_size ss < 2 ^ 64 ->
  array_contents dst = Objects pending ->
  zlen pending = zlen ss ->
  CopyTF_TensorStringsToPyArray rt (mkTensor TF_STRING dims (Wire.packed ss) dealloc)
    (zlen ss) dst
  = Ok (mkArray (array_descr dst) (array_shape dst) (Objects (bytes_elements ss))
          (NPY_ARRAY_OWNDATA dst)).
Proof.
  intros Hrt Hfit Hdst Hpending. unfold CopyTF_TensorStringsToPyArray.
  unfold TF_TensorData, TF_TensorByteSize. cbn [tensor_data].
  rewrite Z.add_0_l, Z.sub_0_r.
  pose proof (zlen_nonneg (Wire.packed ss)) as Hn.
  pose proof (zlen_packed ss) as Hp.
  rewrite (to_uint64_small (zlen (Wire.packed ss))) by lia.
  rewrite Z.sub_diag. change (Int.to_uint64 0 =? 0) with true. cbn [negb].
  pose proof (zlen_nonneg ss) as Hss. pose proof (payload_size_nonneg ss) as Hps.
  rewrite total_size_split in Hp, Hfit. unfold Int.sizeof_uint64 in *.
  rewrite to_uint64_small by lia.
  rewrite Z.add_0_l, to_nat_zlen.
  destruct dst as [descr shape contents own]. cbn [array_contents] in Hdst.
  subst contents. cbn [array_descr array_shape NPY_ARRAY_OWNDATA].
  pose proof (CopyTF_TensorStrings_loop_packed rt ss descr shape own Hrt) as H.
  rewrite total_size_split in H. unfold Int.sizeof_uint64 in H.
  specialize (H Hfit ss [] [] pending eq_refl eq_refl Hpending).
  cbn [app] in H. exact H.
Qed.

(** ** The string codec *)

(** C1.  For every list [ss] of byte strings (empty strings and embedded
    zero bytes included) whose encoding fits [size_t], in a runtime that
    does not fail to allocate or to store an element:
    [EncodePyBytesArray] on the array of these strings returns a packed
    buffer; [CopyTF_TensorStringsToPyArray] on a string tensor holding
    that buffer fills the [nelems] slots of the destination with exactly
    the bytes of each element; and each of the [nelems] offsets in the
    head of the buffer lies in [[0, payload_size)], the payload being
    what follows the offset table. *)
Theorem string_codec_round_trip (rt : Runtime) (ss : list (list byte))
    (array dst : PyArrayObject) (pending : list (option PyElement))
    (dims : list Z) (dealloc : Deallocator) :
  array_contents array = Objects (bytes_elements ss) ->
  Wire.total_size ss < 2 ^ 64 ->
  elements_storable rt ->
  array_contents dst = Objects pending ->
  zlen pending = zlen ss ->
  exists (size : Z) (encoded : buffer),
    EncodePyBytesArray array (zlen ss) = Ok (size, encoded) /\
    (exists out : PyArrayObject,
        CopyTF_TensorStringsToPyArray rt (mkTensor TF_STRING dims encoded dealloc)
          (zlen ss) dst = Ok out /\
        array_contents out = Objects (bytes_elements ss)) /\
    (forall i : Z,
        0 <= i < zlen ss ->
        exists offset : Z,
          Mem.load_uint64 encoded (Int.sizeof_uint64 * i) = Ok offset /\
          0 <= offset < size - Int.sizeof_uint64 * zlen ss).
Proof.
  intros Harray Hfit Hrt Hdst Hpending.
  assert (Hviews : byte_views (PyArray_items array) = Some ss).
  { unfold PyArray_items. rewrite Harray. apply byte_views_bytes. }
  exists (Wire.total_size ss), (Wire.packed ss). split; [| split].
  - apply EncodePyBytesArray_packed; assumption.
  - eexists. split.
    + apply (CopyTF_TensorStringsToPyArray_packed rt ss dims dealloc dst pending);
        assumption.
    + reflexivity.
  - intros i Hi. destruct (list_at ss i Hi) as (ds & s & rest & -> & <-).
    exists (Wire.payload_size ds). split.
    + apply packed_offset. exact Hfit.
    + rewrite total_size_split, payload_size_app. cbn [Wire.payload_size].
      pose proof (payload_size_nonneg ds). pose proof (payload_size_nonneg rest).
      pose proof (record_size_pos s). lia.
Qed.

Lemma string_codec_round_trip_witness :
  exists (size : Z) (encoded : buffer),
    EncodePyBytesArray (Sample.bytes_array Sample.strings) 3 = Ok (size, encoded) /\
    (exists out : PyArrayObject,
        CopyTF_TensorStringsToPyArray Sample.runtime
          (mkTensor TF_STRING [3] encoded delete_char_array) 3
          (mkArray Sample.object_ [3] (Objects (repeat (Some ElemNone) 3)) true)
        = Ok out /\
        array_contents out = Objects (bytes_elements Sample.strings)) /\
    (forall i : Z,
        0 <= i < 3 ->
        exists offset : Z,
          Mem.load_uint64 encoded (Int.sizeof_uint64 * i) = Ok offset /\
          0 <= offset < size - Int.sizeof_uint64 * 3).
Proof.
  apply (string_codec_round_trip Sample.runtime Sample.strings
           (Sample.bytes_array Sample.strings)
           (mkArray Sample.object_ [3] (Objects (repeat (Some ElemNone) 3)) true)
           (repeat (Some ElemNone) 3) [3] delete_char_array).
  - reflexivity.
  - vm_compute. reflexivity.
  - split; intros i; reflexivity.
  - reflexivity.
  - reflexivity.
Defined.

(** C8.  The measuring pass computes the total size as the sum over all
    elements of 8 + varint-length(len) + len, and the buffer the encoder
    hands back has exactly that many bytes (whenever every element has a
    byte view and the sum fits [size_t]); for the elements "", "ab" and
    "x" 300 times the buffer has 3*8 + (1+0) + (1+2) + (2+300) bytes. *)
Theorem measuring_pass_total_size :
  (forall (array : PyArrayObject) (ss : list (list byte)),
      byte_views (PyArray_items array) = Some ss ->
      Wire.total_size ss < 2 ^ 64 ->
      measure_pass array = Ok (Wire.total_size ss) /\
      exists encoded : buffer,
        EncodePyBytesArray array (zlen ss) = Ok (Wire.total_size ss, encoded) /\
        zlen encoded = Wire.total_size ss) /\
  (exists encoded : buffer,
      EncodePyBytesArray (Sample.bytes_array Sample.strings) 3
      = Ok (3 * 8 + (1 + 0) + (1 + 2) + (2 + 300), encoded) /\
      zlen encoded = 3 * 8 + (1 + 0) + (1 + 2) + (2 + 300)).
Proof.
  assert (General :
    forall (array : PyArrayObject) (ss : list (list byte)),
      byte_views (PyArray_items array) = Some ss ->
      Wire.total_size ss < 2 ^ 64 ->
      measure_pass array = Ok (Wire.total_size ss) /\
      exists encoded : buffer,
        EncodePyBytesArray array (zlen ss) = Ok (Wire.total_size ss, encoded) /\
        zlen encoded = Wire.total_size ss).
  { intros array ss Hv Hfit. split.
    - apply measure_pass_views; assumption.
    - exists (Wire.packed ss). split.
      + apply EncodePyBytesArray_packed; assumption.
      + apply zlen_packed. }
  split; [exact General |].
  destruct (General (Sample.bytes_array Sample.strings) Sample.strings) as [_ H].
  - apply byte_views_bytes.
  - vm_compute. reflexivity.
  - exact H.
Qed.

Lemma measuring_pass_total_size_witness :
  measure_pass (Sample.bytes_array Sample.strings) = Ok 330.
Proof.
  apply (proj1 (proj1 measuring_pass_total_size
                  (Sample.bytes_array Sample.strings) Sample.strings
                  eq_refl ltac:(vm_compute; reflexivity))).
Defined.

(** C10.  For an array each of whose elements has a byte view (the same
    in both passes, the array being the same value) and whose encoding
    fits [size_t], with [nelems] the number of its elements: the fill
    pass ends with the write cursor at the buffer base plus the size the
    measuring pass computed, so the encoder's final [CHECK_EQ] holds and
    the encoder returns. *)
Theorem fill_pass_ends_at_measured_size (array : PyArrayObject)
    (ss : list (list byte)) (nelems : Z) :
  byte_views (PyArray_items array) = Some ss ->
  nelems = zlen (PyArray_items array) ->
  Wire.total_size ss < 2 ^ 64 ->
  exists (size : Z) (st : EncodeState),
    measure_pass array = Ok size /\
    fill_pass array nelems size = Ok st /\
    enc_dst st = size /\
    EncodePyBytesArray array nelems = Ok (size, enc_mem st).
Proof.
  intros Hv Hn Hfit. rewrite <- (byte_views_length _ _ Hv) in Hn. subst nelems.
  exists (Wire.total_size ss),
    (mkEncodeState (Wire.packed ss) (Wire.total_size ss) (Int.sizeof_uint64 * zlen ss)).
  repeat split.
  - apply measure_pass_views; assumption.
  - apply fill_pass_views; assumption.
  - apply EncodePyBytesArray_packed; assumption.
Qed.

Lemma fill_pass_ends_at_measured_size_witness :
  exists (size : Z) (st : EncodeState),
    measure_pass (Sample.bytes_array Sample.strings) = Ok size /\
    fill_pass (Sample.bytes_array Sample.strings) 3 size = Ok st /\
    enc_dst st = size /\
    EncodePyBytesArray (Sample.bytes_array Sample.strings) 3 = Ok (size, enc_mem st).
Proof.
  apply (fill_pass_ends_at_measured_size (Sample.bytes_array Sample.strings)
           Sample.strings 3).
  - reflexivity.
  - reflexivity.
  - vm_compute. reflexivity.
Defined.

(** C2 (the code departs from it).  The size check of
    [CopyTF_TensorStringsToPyArray] compares the tensor's byte size with
    itself, so it never fires: the function is its decoding loop, for
    every tensor.  A string tensor of one element whose buffer is ten
    bytes long, where the offset table and the only record take nine, is
    decoded without an error. *)
Theorem residual_bytes_not_detected :
  (forall (rt : Runtime) (src : TF_Tensor) (nelems : Z) (dst : PyArrayObject),
      CopyTF_TensorStringsToPyArray rt src nelems dst
      = CopyTF_TensorStrings_loop rt (TF_TensorData src)
          (Int.to_uint64 (Int.sizeof_uint64 * nelems)) (TF_TensorByteSize src)
          (Z.to_nat nelems) 0 dst) /\
  let encoded := le_split 8 0 ++ [Byte.x00] ++ [Byte.x2a] in
  let src := mkTensor TF_STRING [1] encoded engine_allocated in
  let dst := mkArray Sample.object_ [1] (Objects [Some ElemNone]) true in
  TF_TensorByteSize src = 10 /\
  Int.sizeof_uint64 * 1 + Wire.payload_size [[]] = 9 /\
  CopyTF_TensorStringsToPyArray Sample.runtime src 1 dst
  = Ok (mkArray Sample.object_ [1] (Objects [Some (PyBytes [])]) true).
Proof.
  split.
  - intros rt src nelems dst. unfold CopyTF_TensorStringsToPyArray.
    rewrite !Z.add_0_l, Z.sub_0_r.
    replace (Int.to_uint64 (Int.to_uint64 (TF_TensorByteSize src)
                            - TF_TensorByteSize src)) with 0.
    + reflexivity.
    + unfold Int.to_uint64. rewrite Zminus_mod_idemp_l, Z.sub_diag. reflexivity.
  - cbv zeta. repeat split; vm_compute; reflexivity.
Qed.

(** ** The shape resolver *)

Lemma to_int64_mul_idemp (a d : Z) :
  Int.to_int64 (Int.to_int64 a * d) = Int.to_int64 (a * d).
Proof.
  unfold Int.to_int64. f_equal.
  rewrite (Z.mod_eq (a + 2 ^ 63) (2 ^ 64)) by lia.
  set (q := (a + 2 ^ 63) / 2 ^ 64).
  replace ((a + 2 ^ 63 - 2 ^ 64 * q - 2 ^ 63) * d + 2 ^ 63)
    with (a * d + 2 ^ 63 + (- q * d) * 2 ^ 64) by ring.
  apply Z.mod_add. lia.
Qed.

Lemma dimensions_loop (dims : list Z) :
  forall (pre : list Z) (a : Z),
    fold_left
      (fun '(dims, nelems) (dim_i : Z) =>
         let dims' := dims ++ [dim_i] in
         (dims', Int.to_int64 (nelems * last dims' 0)))
      dims (pre, Int.to_int64 a)
    = (pre ++ dims, Int.to_int64 (a * product dims)).
Proof.
  induction dims as [| d dims IH]; intros pre a; cbn [fold_left product fold_right].
  - now rewrite app_nil_r, Z.mul_1_r.
  - cbv zeta. rewrite last_last, to_int64_mul_idemp, IH.
    rewrite <- app_assoc. cbn [app]. do 2 f_equal. unfold product. ring.
Qed.

(** C3.  For every tensor of resource dtype: a non-zero rank fails with
    [InvalidArgument]; rank 0 succeeds (the byte size being representable
    as an [npy_intp]) with the one-dimensional shape whose dimension is
    the tensor's byte size, and with that byte size as element count. *)
Theorem resource_tensor_dimensions (tensor : TF_Tensor) :
  TF_TensorType tensor = TF_RESOURCE ->
  (TF_NumDims tensor <> 0 ->
   GetPyArrayDimensionsForTensor tensor
   = Fail (errors.InvalidArgument
             [Str "Fetching of non-scalar resource tensors is not supported."])) /\
  (TF_NumDims tensor = 0 ->
   TF_TensorByteSize tensor < 2 ^ 63 ->
   GetPyArrayDimensionsForTensor tensor
   = Ok ([TF_TensorByteSize tensor], TF_TensorByteSize tensor)).
Proof.
  intros Hres. unfold GetPyArrayDimensionsForTensor. rewrite Hres. cbn [is_TF_RESOURCE].
  split.
  - intros Hrank. apply Z.eqb_neq in Hrank. rewrite Hrank. reflexivity.
  - intros Hrank Hsize. rewrite Hrank. cbn [Z.eqb negb last].
    rewrite to_int64_small; [reflexivity |].
    pose proof (zlen_nonneg (tensor_data tensor)). unfold TF_TensorByteSize in *. lia.
Qed.

Lemma resource_tensor_dimensions_witness :
  GetPyArrayDimensionsForTensor
    (mkTensor TF_RESOURCE [2; 3] [Byte.x01; Byte.x02; Byte.x03] engine_allocated)
  = Fail (errors.InvalidArgument
            [Str "Fetching of non-scalar resource tensors is not supported."]) /\
  GetPyArrayDimensionsForTensor
    (mkTensor TF_RESOURCE [] [Byte.x01; Byte.x02; Byte.x03] engine_allocated)
  = Ok ([3], 3).
Proof.
  split.
  - apply (proj1 (resource_tensor_dimensions
                    (mkTensor TF_RESOURCE [2; 3] [Byte.x01; Byte.x02; Byte.x03]
                       engine_allocated) eq_refl)).
    vm_compute. discriminate.
  - apply (proj2 (resource_tensor_dimensions
                    (mkTensor TF_RESOURCE [] [Byte.x01; Byte.x02; Byte.x03]
                       engine_allocated) eq_refl)).
    + reflexivity.
    + vm_compute. reflexivity.
Defined.

(** C9.  For every tensor whose dtype is not resource and whose element
    count is representable as an [int64], the shape resolver returns the
    declared dimensions unchanged and their product as element count; for
    the empty dimension vector the element count is 1. *)
Theorem dense_tensor_dimensions (tensor : TF_Tensor) :
  TF_TensorType tensor <> TF_RESOURCE ->
  - 2 ^ 63 <= product (tensor_dims tensor) < 2 ^ 63 ->
  GetPyArrayDimensionsForTensor tensor
  = Ok (tensor_dims tensor, product (tensor_dims tensor)) /\
  (tensor_dims tensor = [] -> GetPyArrayDimensionsForTensor tensor = Ok ([], 1)).
Proof.
  intros Hdtype Hfit.
  assert (E : GetPyArrayDimensionsForTensor tensor
              = Ok (tensor_dims tensor, product (tensor_dims tensor))).
  { unfold GetPyArrayDimensionsForTensor.
    replace (is_TF_RESOURCE (TF_TensorType tensor)) with false
      by (destruct (TF_TensorType tensor); try reflexivity; contradiction).
    change 1 with (Int.to_int64 1) at 1.
    rewrite dimensions_loop. cbn [app]. rewrite Z.mul_1_l.
    now rewrite to_int64_small. }
  split; [exact E |].
  intros Hnil. rewrite E, Hnil. reflexivity.
Qed.

Lemma dense_tensor_dimensions_witness :
  GetPyArrayDimensionsForTensor
    (mkTensor TF_FLOAT [2; 3] (Mem.new_chars 24) engine_allocated)
  = Ok ([2; 3], 6).
Proof.
  refine (proj1 (dense_tensor_dimensions
                   (mkTensor TF_FLOAT [2; 3] (Mem.new_chars 24) engine_allocated)
                   _ _)).
  - cbn. discriminate.
  - cbn. lia.
Defined.

(** ** The conversion entry points *)

(** C5.  A null tensor converts to [Py_None] with an OK status, whatever
    the runtime. *)
Theorem null_tensor_to_none (rt : Runtime) :
  TF_TensorToPyArray rt None = Ok Py_None.
Proof. reflexivity. Qed.

Lemma product_nonneg (dims : list Z) :
  Forall (fun d => 0 <= d) dims -> 0 <= product dims.
Proof.
  induction 1 as [| d dims Hd _ IH]; cbn [product fold_right]; [lia |].
  fold (product dims). apply Z.mul_nonneg_nonneg; assumption.
Qed.

Lemma MultiplyList_product (dims : list Z) : PyArray_MultiplyList dims = product dims.
Proof.
  unfold PyArray_MultiplyList, product.
  rewrite <- fold_left_rev_right, <- (rev_involutive dims) at 1.
  rewrite rev_involutive.
  assert (G : forall l a, fold_right (fun y x => x * y) a (rev l) = a * fold_right Z.mul 1 l).
  { induction l as [| d l IH]; intros a; cbn [rev fold_right]; [lia |].
    rewrite fold_right_app. cbn [fold_right]. rewrite IH. lia. }
  rewrite G. lia.
Qed.

Lemma PyArray_Empty_spec (rt : Runtime) (dims : list Z) (descr : PyArray_Descr)
    (a : PyArrayObject) :
  PyArray_Empty rt dims descr = Some a ->
  array_descr a = descr /\ array_shape a = dims /\ NPY_ARRAY_OWNDATA a = true /\
  0 <= PyArray_NBYTES a < 2 ^ 63 /\ zlen (PyArray_DATA a) = PyArray_NBYTES a.
Proof.
  unfold PyArray_Empty. intros H.
  destruct (PyArray_Empty_fails rt dims descr); [discriminate |].
  destruct (forallb (fun d => 0 <=? d) dims) eqn:Hdims; [| discriminate].
  destruct (Z.ltb_spec (elsize descr * PyArray_MultiplyList dims) (2 ^ 63));
    [| discriminate].
  destruct (Z.leb_spec 0 (elsize descr)); [| discriminate].
  cbn [orb negb] in H. injection H as <-.
  assert (Hn : 0 <= elsize descr * PyArray_MultiplyList dims).
  { apply Z.mul_nonneg_nonneg; [assumption |]. rewrite MultiplyList_product.
    apply product_nonneg. apply Forall_forall. intros d Hd.
    rewrite forallb_forall in Hdims. apply Z.leb_le. auto. }
  unfold PyArray_NBYTES, PyArray_ITEMSIZE, PyArray_SIZE, PyArray_DATA.
  cbn [array_descr array_shape NPY_ARRAY_OWNDATA array_contents].
  repeat split; try assumption.
  destruct (type_num descr =? NPY_OBJECT).
  - unfold PyArray_NBYTES, PyArray_ITEMSIZE, PyArray_SIZE.
    cbn [array_descr array_shape]. now apply zlen_new_chars.
  - now apply zlen_new_chars.
Qed.

Lemma memcpy_all (dst src : buffer) :
  zlen dst = zlen src -> memcpy dst src (zlen src) = Ok src.
Proof.
  intros Hlen. unfold memcpy.
  pose proof (load_bytes_at [] src [] 0 (zlen src) eq_refl eq_refl) as L.
  cbn [app] in L. rewrite app_nil_r in L. rewrite L. cbn [bind].
  pose proof (store_bytes_at [] dst [] src 0 eq_refl) as H.
  cbn [app] in H. rewrite !app_nil_r in H. apply H. unfold zlen in Hlen. lia.
Qed.

Lemma FastMemcpy_memcpy (dst src : buffer) (size : Z) :
  FastMemcpy dst src size = memcpy dst src size.
Proof.
  unfold FastMemcpy, memmove, memcpy.
  repeat match goal with
         | |- context [match ?x with _ => _ end] => is_var x; destruct x
         end; reflexivity.
Qed.

Lemma FastMemcpy_all (dst src : buffer) (size : Z) :
  size = zlen src -> zlen dst = zlen src -> FastMemcpy dst src size = Ok src.
Proof. intros -> H. rewrite FastMemcpy_memcpy. now apply memcpy_all. Qed.

Lemma GetPyArrayDimensionsForTensor_dense (tensor : TF_Tensor) :
  is_TF_RESOURCE (TF_TensorType tensor) = false ->
  GetPyArrayDimensionsForTensor tensor
  = Ok (tensor_dims tensor, Int.to_int64 (product (tensor_dims tensor))).
Proof.
  intros H. unfold GetPyArrayDimensionsForTensor. rewrite H.
  change 1 with (Int.to_int64 1) at 1.
  rewrite dimensions_loop. cbn [app]. now rewrite Z.mul_1_l.
Qed.

(** What the copy path does for a tensor that is not a string tensor,
    once the destination array is allocated. *)
Lemma copy_path_outcome (rt : Runtime) (t : TF_Tensor) (dims : list Z) (nelems : Z)
    (descr : PyArray_Descr) (py_array : PyArrayObject) :
  GetPyArrayDimensionsForTensor t = Ok (dims, nelems) ->
  copy_path_taken rt t dims ->
  TF_TensorType t <> TF_STRING ->
  DataTypeToPyArray_Descr rt (TF_TensorType t) = Ok descr ->
  PyArray_Empty rt dims descr = Some py_array ->
  TF_TensorToPyArray rt (Some t)
  = if PyArray_NBYTES py_array =? TF_TensorByteSize t
    then Ok (PyNdarray (mkArray descr dims (Dense (TF_TensorData t)) true))
    else Fail (errors.Internal
                 [Str "ndarray was "; Num (PyArray_NBYTES py_array);
                  Str " bytes but TF_Tensor was ";
                  Num (TF_TensorByteSize t); Str " bytes"]).
Proof.
  intros Hdims Hcopy Hstr Hdescr Hempty.
  destruct (PyArray_Empty_spec _ _ _ _ Hempty) as (Ed & Es & Eo & Hn & Hdata).
  unfold TF_TensorToPyArray. rewrite Hdims. cbn [bind].
  assert (Halias :
    match TF_TensorMaybeMove rt t with
    | Some moved =>
        match ArrayFromMemory rt dims (TF_TensorData moved) (TF_TensorType moved) with
        | Ok out_ndarray => Some out_ndarray
        | _ => None
        end
    | None => None
    end = None).
  { destruct Hcopy as [Hmove | Hfail].
    - now rewrite Hmove.
    - unfold TF_TensorMaybeMove. destruct (move_granted rt t); [| reflexivity].
      destruct (ArrayFromMemory rt dims (TF_TensorData t) (TF_TensorType t));
        [discriminate | reflexivity | reflexivity]. }
  rewrite Halias, Hdescr. cbn [bind]. rewrite Hempty.
  replace (is_TF_STRING (TF_TensorType t)) with false
    by (destruct (TF_TensorType t); try reflexivity; contradiction).
  rewrite (to_uint64_small (PyArray_NBYTES py_array)) by lia.
  destruct (Z.eqb_spec (PyArray_NBYTES py_array) (TF_TensorByteSize t)) as [E | E].
  - cbn [negb]. rewrite FastMemcpy_all.
    + cbn [bind]. now rewrite Ed, Es, Eo.
    + exact E.
    + now rewrite Hdata.
  - reflexivity.
Qed.

(** C6.  On the copy path, for a dtype other than string: when the byte
    capacity of the freshly allocated array (computed from its
    descriptor and shape) differs from the byte size of the tensor, the
    conversion fails with an [Internal] error whose message carries both
    sizes; no array comes out. *)
Theorem copy_capacity_mismatch_is_internal (rt : Runtime) (t : TF_Tensor)
    (dims : list Z) (nelems : Z) (descr : PyArray_Descr) (py_array : PyArrayObject) :
  GetPyArrayDimensionsForTensor t = Ok (dims, nelems) ->
  copy_path_taken rt t dims ->
  TF_TensorType t <> TF_STRING ->
  DataTypeToPyArray_Descr rt (TF_TensorType t) = Ok descr ->
  PyArray_Empty rt dims descr = Some py_array ->
  PyArray_NBYTES py_array <> TF_TensorByteSize t ->
  TF_TensorToPyArray rt (Some t)
  = Fail (errors.Internal
            [Str "ndarray was "; Num (PyArray_NBYTES py_array);
             Str " bytes but TF_Tensor was "; Num (TF_TensorByteSize t);
             Str " bytes"]).
Proof.
  intros Hdims Hcopy Hstr Hdescr Hempty Hdiff.
  rewrite (copy_path_outcome rt t dims nelems descr py_array) by assumption.
  apply Z.eqb_neq in Hdiff. now rewrite Hdiff.
Qed.

Lemma copy_capacity_mismatch_is_internal_witness :
  TF_TensorToPyArray Sample.runtime (Some Sample.short_float_tensor)
  = Fail (errors.Internal
            [Str "ndarray was "; Num 8; Str " bytes but TF_Tensor was "; Num 7;
             Str " bytes"]).
Proof.
  apply (copy_capacity_mismatch_is_internal Sample.runtime Sample.short_float_tensor
           [2] 2 Sample.float32
           (mkArray Sample.float32 [2] (Dense (Mem.new_chars 8)) true)).
  - reflexivity.
  - left. reflexivity.
  - cbn. discriminate.
  - reflexivity.
  - reflexivity.
  - vm_compute. discriminate.
Defined.

(** C7, as the code has it.  For every tensor that is neither a string
    nor a resource tensor and whose exclusive transfer is refused,
    [TF_TensorToPyArray] takes the copy path; when the dtype has a
    descriptor on the array side, the allocation succeeds and the
    allocated capacity equals the tensor's byte size, it returns OK with
    a fresh array (it owns its data) of the tensor's dimensions whose
    content is the tensor's bytes. *)
Theorem refused_move_is_copied (rt : Runtime) (t : TF_Tensor)
    (descr : PyArray_Descr) (py_array : PyArrayObject) :
  TF_TensorType t <> TF_STRING ->
  TF_TensorType t <> TF_RESOURCE ->
  TF_TensorMaybeMove rt t = None ->
  DataTypeToPyArray_Descr rt (TF_TensorType t) = Ok descr ->
  PyArray_Empty rt (tensor_dims t) descr = Some py_array ->
  PyArray_NBYTES py_array = TF_TensorByteSize t ->
  exists out : PyArrayObject,
    TF_TensorToPyArray rt (Some t) = Ok (PyNdarray out) /\
    array_contents out = Dense (TF_TensorData t) /\
    array_shape out = tensor_dims t /\
    NPY_ARRAY_OWNDATA out = true.
Proof.
  intros Hstr Hres Hmove Hdescr Hempty Hsize.
  assert (Hr : is_TF_RESOURCE (TF_TensorType t) = false)
    by (destruct (TF_TensorType t); try reflexivity; contradiction).
  exists (mkArray descr (tensor_dims t) (Dense (TF_TensorData t)) true).
  split; [| repeat split].
  rewrite (copy_path_outcome rt t (tensor_dims t)
             (Int.to_int64 (product (tensor_dims t))) descr py_array);
    try assumption.
  - apply Z.eqb_eq in Hsize. now rewrite Hsize.
  - now apply GetPyArrayDimensionsForTensor_dense.
  - now left.
Qed.

Lemma refused_move_is_copied_witness :
  exists out : PyArrayObject,
    TF_TensorToPyArray Sample.runtime
      (Some (mkTensor TF_FLOAT [2] (Mem.new_chars 8) DelayedNumpyDecref))
    = Ok (PyNdarray out) /\
    array_contents out = Dense (Mem.new_chars 8) /\
    array_shape out = [2] /\
    NPY_ARRAY_OWNDATA out = true.
Proof.
  apply (refused_move_is_copied Sample.runtime
           (mkTensor TF_FLOAT [2] (Mem.new_chars 8) DelayedNumpyDecref)
           Sample.float32
           (mkArray Sample.float32 [2] (Dense (Mem.new_chars 8)) true)).
  - cbn. discriminate.
  - cbn. discriminate.
  - reflexivity.
  - reflexivity.
  - reflexivity.
  - reflexivity.
Defined.

(** C7, as stated, fails.  A refused move followed by a successful
    allocation does not always end in success: the two-element float
    tensor with a seven-byte buffer is not a string or resource tensor,
    its move is refused and the eight-byte array is allocated, yet the
    conversion returns an [Internal] error; and for a dtype without a
    descriptor on the array side the lookup error is returned although
    nothing fails to allocate. *)
Lemma refused_move_copy_may_fail :
  (TF_TensorType Sample.short_float_tensor <> TF_STRING /\
   TF_TensorType Sample.short_float_tensor <> TF_RESOURCE /\
   TF_TensorMaybeMove Sample.runtime Sample.short_float_tensor = None /\
   PyArray_Empty Sample.runtime [2] Sample.float32
   = Some (mkArray Sample.float32 [2] (Dense (Mem.new_chars 8)) true) /\
   TF_TensorToPyArray Sample.runtime (Some Sample.short_float_tensor)
   = Fail (errors.Internal
             [Str "ndarray was "; Num 8; Str " bytes but TF_Tensor was "; Num 7;
              Str " bytes"])) /\
  (TF_TensorType Sample.variant_tensor <> TF_STRING /\
   TF_TensorType Sample.variant_tensor <> TF_RESOURCE /\
   TF_TensorMaybeMove Sample.runtime Sample.variant_tensor = None /\
   (forall dims descr, PyArray_Empty_fails Sample.runtime dims descr = false) /\
   TF_TensorToPyArray Sample.runtime (Some Sample.variant_tensor)
   = Fail (errors.Internal [Str "Tensorflow type not convertible to numpy dtype."])).
Proof.
  split; repeat split; try (cbn; discriminate); reflexivity.
Qed.

Lemma shape_loop (shape : list Z) :
  forall (pre : list Z) (a : Z),
    fst (fold_left
           (fun '(dims, nelems) (shape_i : Z) =>
              (dims ++ [shape_i], Int.to_int64 (nelems * shape_i)))
           shape (pre, a))
    = pre ++ shape.
Proof.
  induction shape as [| d shape IH]; intros pre a; cbn [fold_left fst].
  - now rewrite app_nil_r.
  - rewrite IH, <- app_assoc. reflexivity.
Qed.

Lemma PyArray_Empty_succeeds (rt : Runtime) (dims : list Z) (descr : PyArray_Descr) :
  PyArray_Empty_fails rt dims descr = false ->
  Forall (fun d => 0 <= d) dims ->
  0 <= elsize descr ->
  elsize descr * PyArray_MultiplyList dims < 2 ^ 63 ->
  exists a : PyArrayObject,
    PyArray_Empty rt dims descr = Some a /\
    PyArray_NBYTES a = elsize descr * PyArray_MultiplyList dims.
Proof.
  intros Hfails Hdims Hel Hsize. unfold PyArray_Empty. rewrite Hfails.
  replace (forallb (fun d => 0 <=? d) dims) with true.
  2: { symmetry. apply forallb_forall. intros d Hd. apply Z.leb_le.
       rewrite Forall_forall in Hdims. auto. }
  replace (elsize descr * PyArray_MultiplyList dims <? 2 ^ 63) with true
    by (symmetry; apply Z.ltb_lt; exact Hsize).
  replace (0 <=? elsize descr) with true by (symmetry; apply Z.leb_le; exact Hel).
  cbn [orb negb]. eexists. split; reflexivity.
Qed.

(** The tensor [PyArrayToTF_Tensor] builds on a dense array of a
    fixed-width dtype adopts the array's shape and bytes. *)
Lemma PyArrayToTF_Tensor_dense (rt : Runtime) (A : PyArrayObject)
    (bytes : buffer) (dtype : TF_DataType) :
  PyArray_wf A ->
  array_contents A = Dense bytes ->
  PyArray_DescrToDataType rt (PyArray_DESCR A) = Ok dtype ->
  dtype <> TF_STRING ->
  dtype <> TF_RESOURCE ->
  PyArrayToTF_Tensor rt (PyNdarray A)
  = Ok (mkTensor dtype (array_shape A) bytes DelayedNumpyDecref).
Proof.
  intros (Hshape & Hel & Hmax & Hlen) Hdense Hlookup Hstr Hres.
  rewrite Hdense in Hlen.
  unfold PyArrayToTF_Tensor. cbn [PyArray_FromAny]. rewrite Hlookup. cbn [bind].
  pose proof (shape_loop (PyArray_SHAPE A) [] 1) as Hfold.
  destruct (fold_left _ (PyArray_SHAPE A) ([], 1)) as [dims nelems].
  cbn [fst app] in Hfold. subst dims.
  replace (is_TF_RESOURCE dtype) with false
    by (destruct dtype; try reflexivity; contradiction).
  replace (is_TF_STRING dtype) with false
    by (destruct dtype; try reflexivity; contradiction).
  cbn [negb]. unfold TF_NewTensor, PyArray_DATA, PyArray_SHAPE. rewrite Hdense.
  pose proof (zlen_nonneg bytes).
  rewrite to_uint64_small by lia.
  rewrite <- Hlen, to_nat_zlen, firstn_all. reflexivity.
Qed.

(** C4.  For every dense array [A] of a fixed-width dtype (one the
    lookup maps to a dtype other than string and resource):
    [PyArrayToTF_Tensor] returns a tensor; whatever array
    [TF_TensorToPyArray] then returns for it has exactly [A]'s shape and
    exactly [A]'s bytes; and it does return one when the lookup back
    gives a descriptor of the same element size and the allocator does
    not fail. *)
Theorem dense_array_round_trip (rt : Runtime) (A : PyArrayObject)
    (bytes : buffer) (dtype : TF_DataType) :
  PyArray_wf A ->
  array_contents A = Dense bytes ->
  PyArray_DescrToDataType rt (PyArray_DESCR A) = Ok dtype ->
  dtype <> TF_STRING ->
  dtype <> TF_RESOURCE ->
  exists t : TF_Tensor,
    PyArrayToTF_Tensor rt (PyNdarray A) = Ok t /\
    (forall out : PyObject,
        TF_TensorToPyArray rt (Some t) = Ok out ->
        exists B : PyArrayObject,
          out = PyNdarray B /\
          array_shape B = array_shape A /\
          array_contents B = Dense bytes) /\
    (forall descr : PyArray_Descr,
        DataTypeToPyArray_Descr rt dtype = Ok descr ->
        elsize descr = elsize (PyArray_DESCR A) ->
        PyArray_Empty_fails rt (array_shape A) descr = false ->
        exists B : PyArrayObject,
          TF_TensorToPyArray rt (Some t) = Ok (PyNdarray B)).
Proof.
  intros Hwf Hdense Hlookup Hstr Hres.
  set (t := mkTensor dtype (array_shape A) bytes DelayedNumpyDecref).
  exists t. split; [now apply PyArrayToTF_Tensor_dense |].
  assert (Hr : is_TF_RESOURCE (TF_TensorType t) = false)
    by (cbn; destruct dtype; try reflexivity; contradiction).
  assert (Hs : is_TF_STRING (TF_TensorType t) = false)
    by (cbn; destruct dtype; try reflexivity; contradiction).
  pose proof (GetPyArrayDimensionsForTensor_dense t Hr) as Hdims.
  cbn [tensor_dims t] in Hdims.
  (* the aliasing attempt, when the move is granted and the dtype known *)
  assert (Halias : forall descr,
    move_granted rt t = true ->
    DataTypeToPyArray_Descr rt dtype = Ok descr ->
    TF_TensorToPyArray rt (Some t)
    = Ok (PyNdarray (mkArray descr (array_shape A) (Dense bytes) false))).
  { intros descr Hm Hd. unfold TF_TensorToPyArray. rewrite Hdims. cbn [bind].
    unfold TF_TensorMaybeMove. rewrite Hm. unfold ArrayFromMemory.
    rewrite Hr, Hs. cbn [orb]. cbn [TF_TensorType tensor_dtype t]. rewrite Hd.
    reflexivity. }
  (* without a descriptor nothing is returned *)
  assert (Hnone : forall s,
    DataTypeToPyArray_Descr rt dtype = Fail s ->
    TF_TensorToPyArray rt (Some t) = Fail s).
  { intros s Hd. unfold TF_TensorToPyArray. rewrite Hdims. cbn [bind].
    unfold TF_TensorMaybeMove, ArrayFromMemory.
    destruct (move_granted rt t); rewrite ?Hr, ?Hs; cbn [orb];
      cbn [TF_TensorType tensor_dtype t]; rewrite Hd; reflexivity. }
  assert (Habort : forall w,
    DataTypeToPyArray_Descr rt dtype = Abort w ->
    TF_TensorToPyArray rt (Some t) = Abort w).
  { intros w Hd. unfold TF_TensorToPyArray. rewrite Hdims. cbn [bind].
    unfold TF_TensorMaybeMove, ArrayFromMemory.
    destruct (move_granted rt t); rewrite ?Hr, ?Hs; cbn [orb];
      cbn [TF_TensorType tensor_dtype t]; rewrite Hd; reflexivity. }
  assert (Hrefused : move_granted rt t = false -> copy_path_taken rt t (array_shape A)).
  { intros Hm. left. unfold TF_TensorMaybeMove. now rewrite Hm. }
  assert (Hstr' : TF_TensorType t <> TF_STRING) by exact Hstr.
  split.
  - intros out Hout.
    destruct (DataTypeToPyArray_Descr rt dtype) as [descr | s | w] eqn:Hd.
    + destruct (move_granted rt t) eqn:Hm.
      * rewrite (Halias descr eq_refl eq_refl) in Hout. injection Hout as <-.
        eexists. repeat split.
      * destruct (PyArray_Empty rt (array_shape A) descr) as [py_array |] eqn:He.
        -- rewrite (copy_path_outcome rt t (array_shape A) _ descr py_array
                      Hdims (Hrefused eq_refl) Hstr' Hd He) in Hout.
           destruct (PyArray_NBYTES py_array =? TF_TensorByteSize t); [| discriminate].
           injection Hout as <-. eexists. repeat split.
        -- unfold TF_TensorToPyArray in Hout. rewrite Hdims in Hout. cbn [bind] in Hout.
           unfold TF_TensorMaybeMove in Hout. rewrite Hm in Hout.
           cbn [TF_TensorType tensor_dtype t] in Hout. rewrite Hd in Hout.
           cbn [bind] in Hout. rewrite He in Hout. discriminate.
    + rewrite (Hnone s eq_refl) in Hout. discriminate.
    + rewrite (Habort w eq_refl) in Hout. discriminate.
  - intros descr Hd Hel Hfails.
    destruct (move_granted rt t) eqn:Hm.
    + eexists. apply Halias; [reflexivity | exact Hd].
    + destruct Hwf as (Hshape & Hel0 & Hmax & Hlen). rewrite Hdense in Hlen.
      unfold PyArray_NBYTES, PyArray_ITEMSIZE, PyArray_SIZE, PyArray_DESCR in *.
      destruct (PyArray_Empty_succeeds rt (array_shape A) descr Hfails Hshape)
        as (py_array & He & Hn); [lia | rewrite Hel; exact Hmax |].
      eexists.
      rewrite (copy_path_outcome rt t (array_shape A) _ descr py_array
                 Hdims (Hrefused eq_refl) Hstr' Hd He).
      replace (PyArray_NBYTES py_array =? TF_TensorByteSize t) with true.
      * reflexivity.
      * symmetry. apply Z.eqb_eq. rewrite Hn, Hel.
        unfold TF_TensorByteSize. cbn [tensor_data t]. lia.
Qed.

Lemma dense_array_round_trip_witness :
  exists t : TF_Tensor,
    PyArrayToTF_Tensor Sample.runtime (PyNdarray Sample.float_array) = Ok t /\
    (forall out : PyObject,
        TF_TensorToPyArray Sample.runtime (Some t) = Ok out ->
        exists B : PyArrayObject,
          out = PyNdarray B /\
          array_shape B = [2] /\
          array_contents B = array_contents Sample.float_array) /\
    (forall descr : PyArray_Descr,
        DataTypeToPyArray_Descr Sample.runtime TF_FLOAT = Ok descr ->
        elsize descr = 4 ->
        PyArray_Empty_fails Sample.runtime [2] descr = false ->
        exists B : PyArrayObject,
          TF_TensorToPyArray Sample.runtime (Some t) = Ok (PyNdarray B)).
Proof.
  apply (dense_array_round_trip Sample.runtime Sample.float_array
           [Byte.x00; Byte.x00; Byte.x80; Byte.x3f; Byte.x00; Byte.x00; Byte.x00; Byte.x40]
           TF_FLOAT).
  - split; [| split; [| split]].
    + repeat constructor; lia.
    + cbn. lia.
    + cbn. lia.
    + reflexivity.
  - reflexivity.
  - reflexivity.
  - discriminate.
  - discriminate.
Defined.

(** * Further properties of the conversion layer *)

(** ** The encoder *)

Lemma PyBytesArrayMap_iter_app {S : Type} (f : list byte -> S -> Outcome S) :
  forall (good : list (option PyElement)) (ss : list (list byte))
         (tl : list (option PyElement)) (s : S),
    byte_views good = Some ss ->
    PyBytesArrayMap_iter (good ++ tl) f s
    = (s' <- fold_views f ss s ;; PyBytesArrayMap_iter tl f s').
Proof.
  induction good as [| item good IH]; intros ss tl s Hv; cbn in Hv.
  - injection Hv as <-. reflexivity.
  - destruct item as [obj |]; [| discriminate].
    destruct (PyObjectToString obj) as [x | |] eqn:Ex; try discriminate.
    destruct (byte_views good) as [ss' |] eqn:Es; [| discriminate].
    injection Hv as <-. cbn [app PyBytesArrayMap_iter fold_views]. rewrite Ex.
    cbn [bind]. destruct (f x s) as [s' | |]; cbn [bind]; auto.
Qed.

Lemma measure_views_total (ss : list (list byte)) :
  forall acc : Z, exists size : Z, fold_views measure_element ss acc = Ok size.
Proof.
  induction ss as [| s ss IH]; intros acc; cbn [fold_views].
  - now exists acc.
  - unfold measure_element at 1. cbn [bind]. apply IH.
Qed.

(** X1.  When the elements before some element all have a byte view and
    that element has none (no item, a text without UTF-8 form, an object
    of another type), [EncodePyBytesArray] returns that element's error,
    whatever [nelems] is and whatever follows: the measuring pass stops
    there and no buffer is made. *)
Theorem encoder_stops_at_first_bad_element (array : PyArrayObject) (nelems : Z)
    (good rest : list (option PyElement)) (bad : option PyElement)
    (ss : list (list byte)) (status : Status) :
  PyArray_items array = good ++ bad :: rest ->
  byte_views good = Some ss ->
  item_error bad = Some status ->
  EncodePyBytesArray array nelems = Fail status /\
  measure_pass array = Fail status.
Proof.
  intros Hitems Hgood Hbad.
  assert (M : measure_pass array = Fail status).
  { unfold measure_pass, PyBytesArrayMap. rewrite Hitems.
    rewrite (PyBytesArrayMap_iter_app _ good ss) by exact Hgood.
    destruct (measure_views_total ss 0) as [size ->]. cbn [bind PyBytesArrayMap_iter].
    unfold item_error in Hbad. destruct bad as [obj |].
    - destruct (PyObjectToString obj); try discriminate.
      injection Hbad as ->. reflexivity.
    - injection Hbad as <-. reflexivity. }
  split; [| exact M]. unfold EncodePyBytesArray. rewrite M. reflexivity.
Qed.

Lemma encoder_stops_at_first_bad_element_witness :
  EncodePyBytesArray Cases.mixed_array 2
  = Fail (errors.Internal [Str "Unsupported object type "; Str "float"]) /\
  measure_pass Cases.mixed_array
  = Fail (errors.Internal [Str "Unsupported object type "; Str "float"]).
Proof.
  apply (encoder_stops_at_first_bad_element Cases.mixed_array 2
           [Some (PyBytes [Byte.x61])] [] (Some (PyOtherElement "float"))
           [[Byte.x61]]).
  - reflexivity.
  - reflexivity.
  - reflexivity.
Defined.

(** X2.  The encoder sees the elements only through their byte views:
    two arrays whose elements have the same views (bytes objects, or
    texts with these bytes as UTF-8 form) are encoded alike, for every
    [nelems]. *)
Theorem encoder_sees_byte_views_only (a1 a2 : PyArrayObject) (nelems : Z)
    (ss : list (list byte)) :
  byte_views (PyArray_items a1) = Some ss ->
  byte_views (PyArray_items a2) = Some ss ->
  EncodePyBytesArray a1 nelems = EncodePyBytesArray a2 nelems.
Proof.
  intros H1 H2. unfold EncodePyBytesArray, measure_pass, fill_pass, PyBytesArrayMap.
  rewrite (PyBytesArrayMap_iter_views _ _ ss _ H1).
  rewrite (PyBytesArrayMap_iter_views _ _ ss _ H2).
  destruct (fold_views measure_element ss 0) as [size | |]; cbn [bind]; try reflexivity.
  rewrite (PyBytesArrayMap_iter_views _ _ ss _ H1).
  rewrite (PyBytesArrayMap_iter_views _ _ ss _ H2).
  reflexivity.
Qed.

Lemma encoder_sees_byte_views_only_witness :
  EncodePyBytesArray Cases.text_array 1 = EncodePyBytesArray Cases.bytes_array 1.
Proof.
  apply (encoder_sees_byte_views_only Cases.text_array Cases.bytes_array 1
           [[Byte.x61; Byte.x62]]); reflexivity.
Defined.

(** X3.  The buffer [EncodePyBytesArray] returns is laid out as the wire
    format says: the little-endian 64-bit offsets of the records, in
    element order and counted from the end of the offset table, then for
    each element the varint of its length and its bytes. *)
Theorem encoded_buffer_layout (array : PyArrayObject) (ss : list (list byte)) :
  byte_views (PyArray_items array) = Some ss ->
  Wire.total_size ss < 2 ^ 64 ->
  EncodePyBytesArray array (zlen ss)
  = Ok (Wire.total_size ss,
        flat_map (le_split 8) (Wire.offsets 0 ss)
          ++ flat_map (fun s => core.varint_bytes (zlen s) ++ s) ss).
Proof.
  intros Hv Hfit. apply (EncodePyBytesArray_packed array ss Hv Hfit).
Qed.

Lemma encoded_buffer_layout_witness :
  EncodePyBytesArray Cases.text_array 1
  = Ok (11, le_split 8 0 ++ [Byte.x02; Byte.x61; Byte.x62]).
Proof.
  apply (encoded_buffer_layout Cases.text_array [[Byte.x61; Byte.x62]]).
  - reflexivity.
  - vm_compute. reflexivity.
Defined.

(** X4.  In the encoded buffer the offset of element [i] is the total
    size of the records before it, so the first offset is 0 and the
    offsets are strictly increasing in element order. *)
Theorem encoded_offsets_increase (array : PyArrayObject) (ss : list (list byte)) :
  byte_views (PyArray_items array) = Some ss ->
  Wire.total_size ss < 2 ^ 64 ->
  exists (size : Z) (encoded : buffer),
    EncodePyBytesArray array (zlen ss) = Ok (size, encoded) /\
    (forall (ds rest : list (list byte)) (s : list byte),
        ss = ds ++ s :: rest ->
        Mem.load_uint64 encoded (Int.sizeof_uint64 * zlen ds)
        = Ok (Wire.payload_size ds)) /\
    (forall i j oi oj : Z,
        0 <= i < j -> j < zlen ss ->
        Mem.load_uint64 encoded (Int.sizeof_uint64 * i) = Ok oi ->
        Mem.load_uint64 encoded (Int.sizeof_uint64 * j) = Ok oj ->
        oi < oj).
Proof.
  intros Hv Hfit. exists (Wire.total_size ss), (Wire.packed ss).
  assert (Hoff : forall ds rest s,
             ss = ds ++ s :: rest ->
             Mem.load_uint64 (Wire.packed ss) (Int.sizeof_uint64 * zlen ds)
             = Ok (Wire.payload_size ds)).
  { intros ds rest s ->. apply packed_offset. exact Hfit. }
  split; [now apply EncodePyBytesArray_packed |]. split; [exact Hoff |].
  intros i j oi oj Hij Hj Hi' Hj'.
  destruct (list_at ss i ltac:(lia)) as (ds & s & rest & Hss & Hds).
  assert (Hrest : 0 <= j - i - 1 < zlen rest).
  { rewrite Hss, zlen_app, zlen_cons in Hj. lia. }
  destruct (list_at rest (j - i - 1) Hrest) as (ds2 & s2 & rest2 & Hr & Hds2).
  pose proof (Hoff ds rest s Hss) as E1. rewrite Hds in E1.
  assert (Hss2 : ss = (ds ++ s :: ds2) ++ s2 :: rest2).
  { rewrite Hss, Hr, <- app_assoc. reflexivity. }
  pose proof (Hoff _ _ _ Hss2) as E2.
  replace (zlen (ds ++ s :: ds2)) with j in E2
    by (rewrite zlen_app, zlen_cons; lia).
  rewrite E1 in Hi'. rewrite E2 in Hj'. injection Hi' as <-. injection Hj' as <-.
  rewrite payload_size_app. cbn [Wire.payload_size].
  pose proof (record_size_pos s). pose proof (payload_size_nonneg ds2). lia.
Qed.

Lemma encoded_offsets_increase_witness :
  exists (size : Z) (encoded : buffer),
    EncodePyBytesArray (Sample.bytes_array Sample.strings) 3 = Ok (size, encoded) /\
    (forall (ds rest : list (list byte)) (s : list byte),
        Sample.strings = ds ++ s :: rest ->
        Mem.load_uint64 encoded (Int.sizeof_uint64 * zlen ds)
        = Ok (Wire.payload_size ds)) /\
    (forall i j oi oj : Z,
        0 <= i < j -> j < 3 ->
        Mem.load_uint64 encoded (Int.sizeof_uint64 * i) = Ok oi ->
        Mem.load_uint64 encoded (Int.sizeof_uint64 * j) = Ok oj ->
        oi < oj).
Proof.
  apply (encoded_offsets_increase (Sample.bytes_array Sample.strings) Sample.strings).
  - reflexivity.
  - vm_compute. reflexivity.
Defined.

Lemma store_bytes_not_fail (mem : buffer) (pos : Z) (bs : list byte) (s : Status) :
  Mem.store_bytes mem pos bs <> Fail s.
Proof. unfold Mem.store_bytes. destruct (_ && _); discriminate. Qed.

(** One call of the encoding lambda moves the write cursor by the size
    of the record, if it comes back at all; it never returns a status. *)
Lemma encode_element_cursor (data_start : Z) (ptr : list byte) (st : EncodeState) :
  match encode_element data_start ptr st with
  | Ok st' => enc_dst st' = enc_dst st + Wire.record_size ptr
  | Fail _ => False
  | Abort _ => True
  end.
Proof.
  unfold encode_element, Mem.store_uint64, core.EncodeVarint64.
  destruct (Mem.store_bytes (enc_mem st) (enc_offsets st) _) as [mem1 | s | w] eqn:E1;
    cbn [bind]; [| now apply store_bytes_not_fail in E1 | exact I].
  destruct (Mem.store_bytes mem1 (enc_dst st) _) as [mem2 | s | w] eqn:E2;
    cbn [bind]; [| now apply store_bytes_not_fail in E2 | exact I].
  destruct (Mem.store_bytes mem2 _ ptr) as [mem3 | s | w] eqn:E3;
    cbn [bind]; [| now apply store_bytes_not_fail in E3 | exact I].
  cbn [enc_dst]. unfold Wire.record_size. rewrite <- VarintLength_bytes. lia.
Qed.

Lemma fill_views_cursor (data_start : Z) (ss : list (list byte)) :
  forall st : EncodeState,
    match fold_views (encode_element data_start) ss st with
    | Ok st' => enc_dst st' = enc_dst st + Wire.payload_size ss
    | Fail _ => False
    | Abort _ => True
    end.
Proof.
  induction ss as [| s ss IH]; intros st; cbn [fold_views Wire.payload_size].
  - lia.
  - pose proof (encode_element_cursor data_start s st) as H1.
    destruct (encode_element data_start s st) as [st1 | e | w]; cbn [bind];
      [| contradiction | exact I].
    specialize (IH st1).
    destruct (fold_views (encode_element data_start) ss st1) as [st2 | e | w];
      [lia | contradiction | exact I].
Qed.

(** X5.  [nelems] has to be the number of elements of the array: for an
    array whose elements all have a byte view and whose encoding fits
    [size_t], any other [nelems] (in the range where eight times it does
    not wrap) ends the process, in the final [CHECK_EQ] or in a write
    outside the buffer; the encoder returns neither a buffer nor a
    status. *)
Theorem encoder_aborts_on_wrong_nelems (array : PyArrayObject)
    (ss : list (list byte)) (nelems : Z) :
  byte_views (PyArray_items array) = Some ss ->
  Wire.total_size ss < 2 ^ 64 ->
  0 <= nelems < 2 ^ 61 ->
  nelems <> zlen ss ->
  exists what : string, EncodePyBytesArray array nelems = Abort what.
Proof.
  intros Hv Hfit Hrange Hne. unfold EncodePyBytesArray.
  rewrite (measure_pass_views array ss Hv Hfit). cbn [bind].
  unfold fill_pass, PyBytesArrayMap.
  rewrite (PyBytesArrayMap_iter_views _ _ ss _ Hv).
  unfold Int.sizeof_uint64. rewrite (to_uint64_small (8 * nelems)) by lia.
  pose proof (fill_views_cursor (8 * nelems) ss
                (mkEncodeState (Mem.new_chars (Wire.total_size ss)) (8 * nelems) 0)) as H.
  destruct (fold_views _ ss _) as [st | e | w]; cbn [bind].
  - cbn [enc_dst] in H. rewrite H, total_size_split. unfold Int.sizeof_uint64.
    destruct (Z.eqb_spec (8 * nelems + Wire.payload_size ss)
                (8 * zlen ss + Wire.payload_size ss)) as [E | E]; [lia |].
    eexists. reflexivity.
  - contradiction.
  - eexists. reflexivity.
Qed.

Lemma encoder_aborts_on_wrong_nelems_witness :
  exists what : string,
    EncodePyBytesArray (Sample.bytes_array Sample.strings) 2 = Abort what.
Proof.
  apply (encoder_aborts_on_wrong_nelems (Sample.bytes_array Sample.strings)
           Sample.strings 2).
  - reflexivity.
  - vm_compute. reflexivity.
  - lia.
  - vm_compute. discriminate.
Defined.

(** ** The copy converter *)

(** X6.  [FastMemcpy] copies exactly [size] bytes, whichever branch of
    its switch is taken: within both buffers, the destination then holds
    the first [size] bytes of the source followed by what it held after
    them, and keeps its length. *)
Theorem FastMemcpy_copies_size_bytes (dst src : buffer) (size : Z) :
  0 <= size <= zlen src ->
  size <= zlen dst ->
  exists out : buffer,
    FastMemcpy dst src size = Ok out /\
    out = firstn (Z.to_nat size) src ++ skipn (Z.to_nat size) dst /\
    zlen out = zlen dst.
Proof.
  intros Hsrc Hdst. rewrite FastMemcpy_memcpy. unfold memcpy.
  set (n := Z.to_nat size).
  assert (Hb : length (firstn n src) = n)
    by (rewrite length_firstn; unfold zlen in Hsrc; lia).
  assert (Hd : length (firstn n dst) = n)
    by (rewrite length_firstn; unfold zlen in Hdst; lia).
  pose proof (load_bytes_at [] (firstn n src) (skipn n src) 0 size eq_refl) as L.
  cbn [app] in L. rewrite firstn_skipn in L.
  rewrite L by (unfold zlen; rewrite Hb; lia). cbn [bind].
  pose proof (store_bytes_at [] (firstn n dst) (skipn n dst) (firstn n src) 0 eq_refl)
    as W.
  cbn [app] in W. rewrite firstn_skipn in W. rewrite W by lia.
  eexists. split; [reflexivity |]. split; [reflexivity |].
  rewrite zlen_app. unfold zlen in *. rewrite Hb, length_skipn. lia.
Qed.

Lemma FastMemcpy_copies_size_bytes_witness :
  exists out : buffer,
    FastMemcpy [Byte.x00; Byte.x00; Byte.x00] [Byte.x01; Byte.x02] 2 = Ok out /\
    out = firstn (Z.to_nat 2) [Byte.x01; Byte.x02]
            ++ skipn (Z.to_nat 2) [Byte.x00; Byte.x00; Byte.x00] /\
    zlen out = zlen [Byte.x00; Byte.x00; Byte.x00].
Proof.
  apply (FastMemcpy_copies_size_bytes [Byte.x00; Byte.x00; Byte.x00]
           [Byte.x01; Byte.x02] 2).
  - cbn. lia.
  - cbn. lia.
Defined.

(** ** The decoder *)

(** X7.  A string tensor whose first offset points at or past the end of
    its buffer is not read there: [CopyTF_TensorStringsToPyArray] returns
    [InvalidArgument] with the message of the failed [TF_StringDecode],
    and nothing is stored. *)
Theorem decoder_rejects_stray_offset (rt : Runtime) (src : TF_Tensor)
    (nelems offset : Z) (dst : PyArrayObject) :
  0 < nelems ->
  TF_TensorByteSize src < 2 ^ 64 ->
  Mem.load_uint64 (TF_TensorData src) 0 = Ok offset ->
  TF_TensorByteSize src
  <= Int.to_uint64 (Int.to_uint64 (Int.sizeof_uint64 * nelems) + offset) ->
  CopyTF_TensorStringsToPyArray rt src nelems dst
  = Fail (errors.InvalidArgument
            [Str "invalid string encoding or truncated src buffer"]).
Proof.
  intros Hn Hsize Hload Hstray. unfold CopyTF_TensorStringsToPyArray.
  rewrite !Z.add_0_l, Z.sub_0_r.
  pose proof (zlen_nonneg (tensor_data src)) as H0.
  unfold TF_TensorByteSize, TF_TensorData in *.
  rewrite (to_uint64_small (zlen (tensor_data src))) by lia.
  rewrite Z.sub_diag. change (Int.to_uint64 0 =? 0) with true. cbn [negb].
  destruct (Z.to_nat nelems) as [| count] eqn:Hc; [lia |].
  cbn [CopyTF_TensorStrings_loop]. rewrite Z.mul_0_r, Hload. cbn [bind].
  set (start := Int.to_uint64 (Int.to_uint64 (Int.sizeof_uint64 * nelems) + offset)) in *.
  unfold TF_StringDecode.
  assert (Hlimit : Int.to_uint64
                     (start + Int.to_uint64 (zlen (tensor_data src) - start))
                   = zlen (tensor_data src)).
  { unfold Int.to_uint64 at 1 2. rewrite Zplus_mod_idemp_r.
    replace (start + (zlen (tensor_data src) - start)) with (zlen (tensor_data src))
      by lia.
    apply Z.mod_small. lia. }
  rewrite Hlimit. unfold core.GetVarint64Ptr, Mem.window.
  replace (Z.to_nat (zlen (tensor_data src) - start)) with 0%nat by lia.
  cbn [firstn core.GetVarint64_loop]. reflexivity.
Qed.

Lemma decoder_rejects_stray_offset_witness :
  CopyTF_TensorStringsToPyArray Sample.runtime Cases.stray_offset_tensor 1
    (mkArray Sample.object_ [1] (Objects [Some ElemNone]) true)
  = Fail (errors.InvalidArgument
            [Str "invalid string encoding or truncated src buffer"]).
Proof.
  apply (decoder_rejects_stray_offset Sample.runtime Cases.stray_offset_tensor 1 5).
  - lia.
  - vm_compute. reflexivity.
  - vm_compute. reflexivity.
  - vm_compute. discriminate.
Defined.



(** ** The conversion entry points *)

(** X8.  When the tensor engine grants the move of a tensor that is
    neither a string nor a resource tensor and whose dtype has a
    descriptor, [TF_TensorToPyArray] returns the array built on the
    tensor's own memory: the tensor's dimensions and bytes, not owning
    its data; the allocator and the copy are not involved. *)
Theorem granted_move_is_aliased (rt : Runtime) (t : TF_Tensor) (descr : PyArray_Descr) :
  move_granted rt t = true ->
  TF_TensorType t <> TF_STRING ->
  TF_TensorType t <> TF_RESOURCE ->
  DataTypeToPyArray_Descr rt (TF_TensorType t) = Ok descr ->
  TF_TensorToPyArray rt (Some t)
  = Ok (PyNdarray (mkArray descr (tensor_dims t) (Dense (TF_TensorData t)) false)).
Proof.
  intros Hm Hs Hr Hd.
  assert (Hr' : is_TF_RESOURCE (TF_TensorType t) = false)
    by (destruct (TF_TensorType t); try reflexivity; contradiction).
  assert (Hs' : is_TF_STRING (TF_TensorType t) = false)
    by (destruct (TF_TensorType t); try reflexivity; contradiction).
  unfold TF_TensorToPyArray. rewrite (GetPyArrayDimensionsForTensor_dense t Hr').
  cbn [bind]. unfold TF_TensorMaybeMove. rewrite Hm. unfold ArrayFromMemory.
  rewrite Hs', Hr'. cbn [orb]. rewrite Hd. reflexivity.
Qed.

Lemma granted_move_is_aliased_witness :
  TF_TensorToPyArray Sample.runtime (Some Cases.engine_float_tensor)
  = Ok (PyNdarray (mkArray Sample.float32 [2] (Dense (Mem.new_chars 8)) false)).
Proof.
  apply (granted_move_is_aliased Sample.runtime Cases.engine_float_tensor Sample.float32).
  - reflexivity.
  - cbn. discriminate.
  - cbn. discriminate.
  - reflexivity.
Defined.





(** X11.  A resource tensor of non-zero rank is rejected by both
    tensor-to-array entry points with the shape resolver's
    [InvalidArgument], whatever the runtime: nothing is moved, looked up
    or allocated before. *)
Theorem ranked_resource_rejected (rt : Runtime) (t : TF_Tensor) :
  TF_TensorType t = TF_RESOURCE ->
  tensor_dims t <> [] ->
  TF_TensorToPyArray rt (Some t)
  = Fail (errors.InvalidArgument
            [Str "Fetching of non-scalar resource tensors is not supported."]) /\
  TF_TensorToMaybeAliasedPyArray rt t
  = Fail (errors.InvalidArgument
            [Str "Fetching of non-scalar resource tensors is not supported."]).
Proof.
  intros Hr Hdims.
  assert (E : GetPyArrayDimensionsForTensor t
              = Fail (errors.InvalidArgument
                        [Str "Fetching of non-scalar resource tensors is not supported."])).
  { unfold GetPyArrayDimensionsForTensor, TF_NumDims. rewrite Hr. cbn [is_TF_RESOURCE].
    destruct (tensor_dims t) as [| d dims]; [contradiction |].
    rewrite zlen_cons. pose proof (zlen_nonneg dims).
    replace (1 + zlen dims =? 0) with false by (symmetry; apply Z.eqb_neq; lia).
    reflexivity. }
  assert (T : TF_TensorToPyArray rt (Some t)
              = Fail (errors.InvalidArgument
                        [Str "Fetching of non-scalar resource tensors is not supported."])).
  { unfold TF_TensorToPyArray. rewrite E. reflexivity. }
  split; [exact T |].
  unfold TF_TensorToMaybeAliasedPyArray. rewrite Hr. cbn [is_TF_STRING is_TF_RESOURCE orb].
  exact T.
Qed.

Lemma ranked_resource_rejected_witness :
  TF_TensorToPyArray Sample.runtime (Some Cases.ranked_resource_tensor)
  = Fail (errors.InvalidArgument
            [Str "Fetching of non-scalar resource tensors is not supported."]) /\
  TF_TensorToMaybeAliasedPyArray Sample.runtime Cases.ranked_resource_tensor
  = Fail (errors.InvalidArgument
            [Str "Fetching of non-scalar resource tensors is not supported."]).
Proof.
  apply (ranked_resource_rejected Sample.runtime Cases.ranked_resource_tensor).
  - reflexivity.
  - cbn. discriminate.
Defined.

Lemma shape_loop_nelems (shape : list Z) :
  forall (pre : list Z) (a : Z),
    fold_left
      (fun '(dims, nelems) (shape_i : Z) =>
         (dims ++ [shape_i], Int.to_int64 (nelems * shape_i)))
      shape (pre, Int.to_int64 a)
    = (pre ++ shape, Int.to_int64 (a * product shape)).
Proof.
  induction shape as [| d shape IH]; intros pre a; cbn [fold_left product fold_right].
  - now rewrite app_nil_r, Z.mul_1_r.
  - rewrite to_int64_mul_idemp, IH, <- app_assoc. cbn [app].
    do 2 f_equal. unfold product. ring.
Qed.

Lemma PyArray_Empty_objects (rt : Runtime) (dims : list Z) (descr : PyArray_Descr) :
  PyArray_Empty_fails rt dims descr = false ->
  Forall (fun d => 0 <= d) dims ->
  0 <= elsize descr ->
  elsize descr * PyArray_MultiplyList dims < 2 ^ 63 ->
  type_num descr = NPY_OBJECT ->
  PyArray_Empty rt dims descr
  = Some (mkArray descr dims
            (Objects (repeat (Some ElemNone) (Z.to_nat (PyArray_MultiplyList dims))))
            true).
Proof.
  intros Hfails Hdims Hel Hsize Hobj. unfold PyArray_Empty. rewrite Hfails.
  replace (forallb (fun d => 0 <=? d) dims) with true.
  2: { symmetry. apply forallb_forall. intros d Hd. apply Z.leb_le.
       rewrite Forall_forall in Hdims. auto. }
  replace (elsize descr * PyArray_MultiplyList dims <? 2 ^ 63) with true
    by (symmetry; apply Z.ltb_lt; exact Hsize).
  replace (0 <=? elsize descr) with true by (symmetry; apply Z.leb_le; exact Hel).
  cbn [orb negb]. rewrite Hobj, Z.eqb_refl. reflexivity.
Qed.

(** X12.  Byte strings survive the two entry points: for a well-formed
    array [A] of byte strings [ss] whose descriptor the lookup takes for
    the string dtype, [PyArrayToTF_Tensor] returns a string tensor with
    [A]'s shape whose buffer is the packed encoding, and
    [TF_TensorToPyArray] turns that tensor into a fresh array of the
    same shape with exactly the strings [ss] (the move, granted or not,
    plays no part), provided the encoding fits [size_t], the lookup back
    gives an object descriptor and the array runtime does not fail. *)
Theorem string_array_round_trip (rt : Runtime) (A : PyArrayObject)
    (ss : list (list byte)) (descr : PyArray_Descr) :
  PyArray_wf A ->
  array_contents A = Objects (bytes_elements ss) ->
  Wire.total_size ss < 2 ^ 64 ->
  PyArray_DescrToDataType rt (PyArray_DESCR A) = Ok TF_STRING ->
  DataTypeToPyArray_Descr rt TF_STRING = Ok descr ->
  type_num descr = NPY_OBJECT ->
  0 <= elsize descr ->
  elsize descr * zlen ss < 2 ^ 63 ->
  PyArray_Empty_fails rt (array_shape A) descr = false ->
  elements_storable rt ->
  exists t : TF_Tensor,
    PyArrayToTF_Tensor rt (PyNdarray A) = Ok t /\
    TF_TensorType t = TF_STRING /\
    tensor_dims t = array_shape A /\
    TF_TensorByteSize t = Wire.total_size ss /\
    TF_TensorToPyArray rt (Some t)
    = Ok (PyNdarray (mkArray descr (array_shape A) (Objects (bytes_elements ss)) true)).
Proof.
  intros (Hshape & _ & _ & Hitems) Hobjs Hfit Hto Hback Htype Hel Hcap Halloc Hrt.
  rewrite Hobjs in Hitems.
  assert (Hcount : product (array_shape A) = zlen ss).
  { rewrite <- MultiplyList_product. unfold PyArray_SIZE in Hitems.
    rewrite <- Hitems. unfold bytes_elements, zlen. now rewrite length_map. }
  assert (Hrange : 0 <= zlen ss < 2 ^ 61).
  { pose proof (zlen_nonneg ss). pose proof (payload_size_nonneg ss).
    rewrite total_size_split in Hfit. unfold Int.sizeof_uint64 in Hfit. lia. }
  assert (Hviews : byte_views (PyArray_items A) = Some ss).
  { unfold PyArray_items. rewrite Hobjs. apply byte_views_bytes. }
  set (t := mkTensor TF_STRING (array_shape A) (Wire.packed ss) delete_char_array).
  assert (Hnelems : Int.to_int64 (product (array_shape A)) = zlen ss)
    by (rewrite Hcount; apply to_int64_small; lia).
  exists t. split; [| split; [| split; [| split]]]; try reflexivity.
  - unfold PyArrayToTF_Tensor. cbn [PyArray_FromAny]. rewrite Hto. cbn [bind].
    change 1 with (Int.to_int64 1) at 1. unfold PyArray_SHAPE.
    rewrite shape_loop_nelems. cbn [app]. rewrite Z.mul_1_l, Hnelems.
    cbn [is_TF_RESOURCE is_TF_STRING negb].
    rewrite (EncodePyBytesArray_packed A ss Hviews Hfit). cbn [bind].
    unfold TF_NewTensor. rewrite <- zlen_packed, to_nat_zlen, firstn_all. reflexivity.
  - unfold TF_TensorByteSize. cbn [tensor_data t]. apply zlen_packed.
  - unfold TF_TensorToPyArray.
    rewrite (GetPyArrayDimensionsForTensor_dense t eq_refl). cbn [bind tensor_dims t].
    rewrite Hnelems.
    replace (match TF_TensorMaybeMove rt t with
             | Some moved =>
                 match ArrayFromMemory rt (array_shape A) (TF_TensorData moved)
                         (TF_TensorType moved) with
                 | Ok out_ndarray => Some out_ndarray
                 | _ => None
                 end
             | None => None
             end) with (@None PyObject)
      by (unfold TF_TensorMaybeMove; destruct (move_granted rt t); reflexivity).
    cbn [TF_TensorType tensor_dtype t]. rewrite Hback. cbn [bind].
    rewrite PyArray_Empty_objects; try assumption;
      [| rewrite MultiplyList_product, Hcount; exact Hcap].
    cbn [is_TF_STRING]. rewrite (to_uint64_small (zlen ss)) by lia.
    unfold t.
    rewrite (CopyTF_TensorStringsToPyArray_packed rt ss (array_shape A)
               delete_char_array _
               (repeat (Some ElemNone) (Z.to_nat (PyArray_MultiplyList (array_shape A)))));
      try assumption; try reflexivity.
    rewrite zlen_repeat, MultiplyList_product, Hcount. lia.
Qed.

Lemma string_array_round_trip_witness :
  exists t : TF_Tensor,
    PyArrayToTF_Tensor Sample.runtime (PyNdarray (Sample.bytes_array Sample.strings))
    = Ok t /\
    TF_TensorType t = TF_STRING /\
    tensor_dims t = [3] /\
    TF_TensorByteSize t = Wire.total_size Sample.strings /\
    TF_TensorToPyArray Sample.runtime (Some t)
    = Ok (PyNdarray (mkArray Sample.object_ [3]
                       (Objects (bytes_elements Sample.strings)) true)).
Proof.
  apply (string_array_round_trip Sample.runtime (Sample.bytes_array Sample.strings)
           Sample.strings Sample.object_).
  - split; [| split; [| split]].
    + repeat constructor; cbn; lia.
    + cbn. lia.
    + cbn. lia.
    + reflexivity.
  - reflexivity.
  - vm_compute. reflexivity.
  - reflexivity.
  - reflexivity.
  - reflexivity.
  - cbn. lia.
  - cbn. lia.
  - reflexivity.
  - split; intros i; reflexivity.
Defined.

(** X13.  A resource array goes through as an opaque blob: for a
    well-formed dense array the lookup takes for the resource dtype,
    [PyArrayToTF_Tensor] returns a tensor of rank 0 holding the array's
    bytes, whatever the array's shape was; [TF_TensorToPyArray] then
    gives back a fresh one-dimensional array of as many elements as
    there are bytes, with the same bytes, when the resource dtype has a
    one-byte descriptor and the allocator does not fail.  The bytes are
    kept, the shape is not. *)
Theorem resource_array_round_trip (rt : Runtime) (A : PyArrayObject)
    (bytes : buffer) (descr : PyArray_Descr) :
  PyArray_wf A ->
  array_contents A = Dense bytes ->
  PyArray_DescrToDataType rt (PyArray_DESCR A) = Ok TF_RESOURCE ->
  DataTypeToPyArray_Descr rt TF_RESOURCE = Ok descr ->
  elsize descr = 1 ->
  PyArray_Empty_fails rt [zlen bytes] descr = false ->
  exists t : TF_Tensor,
    PyArrayToTF_Tensor rt (PyNdarray A) = Ok t /\
    tensor_dims t = [] /\
    TF_TensorData t = bytes /\
    TF_TensorToPyArray rt (Some t)
    = Ok (PyNdarray (mkArray descr [zlen bytes] (Dense bytes) true)).
Proof.
  intros (Hshape & Hel & Hmax & Hlen) Hdense Hto Hback Hone Halloc.
  rewrite Hdense in Hlen. pose proof (zlen_nonneg bytes) as H0.
  set (t := mkTensor TF_RESOURCE [] bytes DelayedNumpyDecref).
  assert (Ht : PyArrayToTF_Tensor rt (PyNdarray A) = Ok t).
  { unfold PyArrayToTF_Tensor. cbn [PyArray_FromAny]. rewrite Hto. cbn [bind].
    destruct (fold_left _ (PyArray_SHAPE A) ([], 1)) as [dims nelems].
    cbn [is_TF_RESOURCE]. unfold TF_NewTensor, PyArray_DATA. rewrite Hdense.
    rewrite to_uint64_small by lia.
    rewrite <- Hlen, to_nat_zlen, firstn_all. reflexivity. }
  exists t. repeat split; [exact Ht |].
  assert (Hdims : GetPyArrayDimensionsForTensor t = Ok ([zlen bytes], zlen bytes)).
  { unfold GetPyArrayDimensionsForTensor, TF_NumDims, TF_TensorType, TF_TensorByteSize, t.
    cbn [tensor_dtype tensor_dims tensor_data is_TF_RESOURCE].
    change (zlen (@nil Z) =? 0) with true. cbn [negb last].
    rewrite to_int64_small by lia. reflexivity. }
  assert (He : exists py_array,
             PyArray_Empty rt [zlen bytes] descr = Some py_array /\
             PyArray_NBYTES py_array = zlen bytes).
  { destruct (PyArray_Empty_succeeds rt [zlen bytes] descr Halloc) as (a & E1 & E2).
    - repeat constructor. exact H0.
    - lia.
    - rewrite Hone. unfold PyArray_MultiplyList. cbn [fold_left]. lia.
    - exists a. split; [exact E1 |]. rewrite E2, Hone.
      unfold PyArray_MultiplyList. cbn [fold_left]. lia. }
  destruct He as (py_array & He & Hn).
  rewrite (copy_path_outcome rt t [zlen bytes] (zlen bytes) descr py_array Hdims).
  - unfold TF_TensorByteSize. cbn [tensor_data t]. rewrite Hn, Z.eqb_refl. reflexivity.
  - right. reflexivity.
  - cbn. discriminate.
  - exact Hback.
  - exact He.
Qed.

Lemma resource_array_round_trip_witness :
  exists t : TF_Tensor,
    PyArrayToTF_Tensor Cases.resource_runtime (PyNdarray Cases.resource_array) = Ok t /\
    tensor_dims t = [] /\
    TF_TensorData t = [Byte.x01; Byte.x02; Byte.x03] /\
    TF_TensorToPyArray Cases.resource_runtime (Some t)
    = Ok (PyNdarray (mkArray Sample.uint8 [3]
                       (Dense [Byte.x01; Byte.x02; Byte.x03]) true)).
Proof.
  apply (resource_array_round_trip Cases.resource_runtime Cases.resource_array
           [Byte.x01; Byte.x02; Byte.x03] Sample.uint8).
  - split; [| split; [| split]].
    + repeat constructor; lia.
    + cbn. lia.
    + cbn. lia.
    + reflexivity.
  - reflexivity.
  - reflexivity.
  - reflexivity.
  - reflexivity.
  - reflexivity.
Defined.

(** X14.  [TF_TensorToMaybeAliasedPyArray] does not ask the tensor engine
    whether the buffer may be moved: for every tensor that is neither
    string nor resource and whose dtype has a descriptor it returns the
    array built on the tensor's own memory, also where
    [TF_TensorToPyArray] would have copied. *)
Theorem maybe_aliased_never_copies (rt : Runtime) (t : TF_Tensor)
    (descr : PyArray_Descr) :
  TF_TensorType t <> TF_STRING ->
  TF_TensorType t <> TF_RESOURCE ->
  DataTypeToPyArray_Descr rt (TF_TensorType t) = Ok descr ->
  TF_TensorToMaybeAliasedPyArray rt t
  = Ok (PyNdarray (mkArray descr (tensor_dims t) (Dense (TF_TensorData t)) false)).
Proof.
  intros Hs Hr Hd.
  assert (Hr' : is_TF_RESOURCE (TF_TensorType t) = false)
    by (destruct (TF_TensorType t); try reflexivity; contradiction).
  assert (Hs' : is_TF_STRING (TF_TensorType t) = false)
    by (destruct (TF_TensorType t); try reflexivity; contradiction).
  unfold TF_TensorToMaybeAliasedPyArray. rewrite Hs', Hr'. cbn [orb].
  rewrite (GetPyArrayDimensionsForTensor_dense t Hr'). cbn [bind].
  unfold ArrayFromMemory. rewrite Hs', Hr'. cbn [orb]. rewrite Hd. reflexivity.
Qed.

Lemma maybe_aliased_never_copies_witness :
  move_granted Sample.runtime
    (mkTensor TF_FLOAT [2] (Mem.new_chars 8) DelayedNumpyDecref) = false /\
  TF_TensorToMaybeAliasedPyArray Sample.runtime
    (mkTensor TF_FLOAT [2] (Mem.new_chars 8) DelayedNumpyDecref)
  = Ok (PyNdarray (mkArray Sample.float32 [2] (Dense (Mem.new_chars 8)) false)).
Proof.
  split; [reflexivity |].
  apply (maybe_aliased_never_copies Sample.runtime
           (mkTensor TF_FLOAT [2] (Mem.new_chars 8) DelayedNumpyDecref) Sample.float32).
  - cbn. discriminate.
  - cbn. discriminate.
  - reflexivity.
Defined.


